(** * Homwing gripper driver: register codec and device session

    A shallow embedding of [homwing_gripper/core.py] (the bit-level codec of
    the control and status registers) and of [homwing_gripper/__init__.py]
    (the [HomwingGripper] session that talks to the Modbus client), followed
    by the properties of the driver.

    Python integers are unbounded, so they are modelled by [Z]; the bit
    operators [&], [|], [<<] and [>>] are [Z.land], [Z.lor], [Z.shiftl] and
    [Z.shiftr], which agree with Python on negative numbers as well
    (infinite two's complement). *)

From Stdlib Require Import ZArith List Bool String Lia.
Import ListNotations.
Local Open Scope Z_scope.

(** ** Python helpers *)

(** [bool(n)] for an integer [n]. *)
Definition py_bool (n : Z) : bool := negb (n =? 0).

(** Exceptions that the driver, the event loop and the transport can raise. *)
Inductive exn : Type :=
| TransportError (code : Z)      (* whatever the Modbus client raises *)
| CancelledError                 (* asyncio: the task was cancelled *)
| TimeoutError                   (* asyncio.timeout expired *)
| ValueError (msg : string)
| IndexError.

(** ** core.py *)

Module ControlRegister.

Record t : Type := Build
  { enable : bool;
    mode : bool;
    move_to_targret : bool;
    automatic_inspection : bool;
    automatic_patrol_inspection : bool }.

Definition to_u8 (self : t) : Z :=
  let ret := 0 in
  let ret := if enable self then Z.lor ret 0x01 else ret in
  let ret := if mode self then Z.lor ret 0x02 else ret in
  let ret := if move_to_targret self then Z.lor ret 0x08 else ret in
  let ret := if automatic_inspection self then Z.lor ret 0x10 else ret in
  let ret := if automatic_patrol_inspection self then Z.lor ret 0x20 else ret in
  ret.

End ControlRegister.

Record ExecuteControlMovement : Type :=
  { force : Z;
    speed : Z;
    position : Z }.

(** The two [IntEnum]s.  Calling an [IntEnum] on an integer that is not one
    of its values raises [ValueError]; [of_int] returns [None] there. *)
Module GSTA.

Inductive t : Type :=
| RESET_OR_INSPECTION
| ACTIVATING
| RESERVED
| ACTIVATED.

Definition value (s : t) : Z :=
  match s with
  | RESET_OR_INSPECTION => 0
  | ACTIVATING => 1
  | RESERVED => 2
  | ACTIVATED => 3
  end.

Definition of_int (v : Z) : option t :=
  match v with
  | 0 => Some RESET_OR_INSPECTION
  | 1 => Some ACTIVATING
  | 2 => Some RESERVED
  | 3 => Some ACTIVATED
  | _ => None
  end.

Definition eqb (a b : t) : bool := value a =? value b.

End GSTA.

Module GOBJ.

Inductive t : Type :=
| MOVING_TO_POSITION
| INNER_SUPPORT
| OUTER_CLIP
| NO_OBJECT_DETECTED.

Definition value (s : t) : Z :=
  match s with
  | MOVING_TO_POSITION => 0
  | INNER_SUPPORT => 1
  | OUTER_CLIP => 2
  | NO_OBJECT_DETECTED => 3
  end.

Definition of_int (v : Z) : option t :=
  match v with
  | 0 => Some MOVING_TO_POSITION
  | 1 => Some INNER_SUPPORT
  | 2 => Some OUTER_CLIP
  | 3 => Some NO_OBJECT_DETECTED
  | _ => None
  end.

Definition eqb (a b : t) : bool := value a =? value b.

End GOBJ.

Module GripperStatus.

Record t : Type := Build
  { gACT : bool;
    gDropSta : bool;
    gMODE : bool;
    gGTO : bool;
    gSTA : GSTA.t;
    gOBJ : GOBJ.t }.

(** [None] stands for the [ValueError] of an enum lookup that fails;
    the mask [0b11] is written [3]. *)
Definition from_u8 (value : Z) : option t :=
  match GSTA.of_int (Z.land (Z.shiftr value 4) 3),
        GOBJ.of_int (Z.land (Z.shiftr value 6) 3) with
  | Some sta, Some obj =>
      Some {| gACT := py_bool (Z.land value (Z.shiftl 1 0));
              gDropSta := py_bool (Z.land value (Z.shiftl 1 1));
              gMODE := py_bool (Z.land value (Z.shiftl 1 2));
              gGTO := py_bool (Z.land value (Z.shiftl 1 3));
              gSTA := sta;
              gOBJ := obj |}
  | _, _ => None
  end.

End GripperStatus.

Module GripperFaultStatus.

Record t : Type := Build
  { control_command_error : bool;
    communication_fault : bool;
    overcurrent_fault : bool;
    voltage_fault : bool;
    enabling_fault : bool;
    overtemperature_fault : bool;
    self_fault : bool }.

Definition from_u8 (value : Z) : t :=
  {| control_command_error := py_bool (Z.land value (Z.shiftl 1 0));
     communication_fault := py_bool (Z.land value (Z.shiftl 1 1));
     overcurrent_fault := py_bool (Z.land value (Z.shiftl 1 2));
     voltage_fault := py_bool (Z.land value (Z.shiftl 1 3));
     enabling_fault := py_bool (Z.land value (Z.shiftl 1 4));
     overtemperature_fault := py_bool (Z.land value (Z.shiftl 1 5));
     self_fault := py_bool (Z.land value (Z.shiftl 1 6)) |}.

End GripperFaultStatus.

Record VoltageTemperature : Type :=
  { voltage : Z;
    temperature : Z }.

Record SpeedForce : Type :=
  { sf_speed : Z;
    sf_force : Z }.

Record FaultPosition : Type :=
  { fault : GripperFaultStatus.t;
    fp_position : Z }.

(** ** The event loop and the Modbus client

    The client is an external collaborator.  Its behaviour is a script: the
    [n]-th request sent over the link is answered by [link n], after
    [latency] milliseconds, by a transport error or by a list of 16-bit
    registers.  The world also holds the simulated clock of the event loop
    (milliseconds), the deadline armed by an enclosing [asyncio.timeout],
    and the trace of what the driver did. *)

Record Reply : Type :=
  { latency : Z;
    payload : Z + list Z }.       (* error code, or [result.registers] *)

Inductive Event : Type :=
| ReadInput (address count slave : Z)
| WriteRegs (address : Z) (values : list Z) (slave : Z)
| Sleep (ms : Z).

Record World : Type :=
  { now : Z;
    deadline : option Z;
    served : nat;
    link : nat -> Reply;
    trace : list Event }.

(** Result of running a coroutine: it returned, it raised, or it is still
    running when the observation stops (loops are unrolled [fuel] times). *)
Inductive outcome (A : Type) : Type :=
| Return (a : A)
| Raise (e : exn)
| Pending.

Arguments Return {A} a.
Arguments Raise {A} e.
Arguments Pending {A}.

Definition Async (A : Type) : Type := World -> outcome A * World.

Definition ret {A} (a : A) : Async A := fun w => (Return a, w).

Definition raise {A} (e : exn) : Async A := fun w => (Raise e, w).

Definition pending {A} : Async A := fun w => (Pending, w).

Definition bind {A B} (m : Async A) (k : A -> Async B) : Async B :=
  fun w =>
    match m w with
    | (Return a, w') => k a w'
    | (Raise e, w') => (Raise e, w')
    | (Pending, w') => (Pending, w')
    end.

Declare Scope async_scope.
Delimit Scope async_scope with async.
Notation "x <- m ;; k" := (bind m (fun x => k))
  (at level 100, m at next level, right associativity) : async_scope.
Notation "m ;; k" := (bind m (fun _ => k))
  (at level 100, right associativity) : async_scope.
Local Open Scope async_scope.

Definition emit (e : Event) : Async unit :=
  fun w => (Return tt,
            {| now := now w; deadline := deadline w; served := served w;
               link := link w; trace := trace w ++ [e] |}).

(** The task is suspended for [d] ms.  When a deadline is armed and is
    reached before (or when) the task would resume, the timer cancels the
    task: [CancelledError] is thrown into it at the deadline. *)
Definition suspend (d : Z) : Async unit :=
  fun w =>
    let resume := now w + d in
    match deadline w with
    | Some D =>
        if D <=? resume
        then (Raise CancelledError,
              {| now := D; deadline := deadline w; served := served w;
                 link := link w; trace := trace w |})
        else (Return tt,
              {| now := resume; deadline := deadline w; served := served w;
                 link := link w; trace := trace w |})
    | None =>
        (Return tt,
         {| now := resume; deadline := deadline w; served := served w;
            link := link w; trace := trace w |})
    end.

(** [asyncio.sleep(ms / 1000)]. *)
Definition sleep (ms : Z) : Async unit :=
  emit (Sleep ms) ;; suspend ms.

(** Sends one request and waits for its reply. *)
Definition request : Async (list Z) :=
  fun w =>
    let r := link w (served w) in
    let w' := {| now := now w; deadline := deadline w; served := S (served w);
                 link := link w; trace := trace w |} in
    match suspend (latency r) w' with
    | (Return _, w'') =>
        match payload r with
        | inl code => (Raise (TransportError code), w'')
        | inr registers => (Return registers, w'')
        end
    | (Raise e, w'') => (Raise e, w'')
    | (Pending, w'') => (Pending, w'')
    end.

(** [client.read_input_registers(address, count=count, slave=slave)]
    followed by [.registers]. *)
Definition read_input_registers (address count slave : Z) : Async (list Z) :=
  emit (ReadInput address count slave) ;; request.

(** [client.write_registers(address, values, slave=slave)]. *)
Definition write_registers (address : Z) (values : list Z) (slave : Z)
  : Async unit :=
  emit (WriteRegs address values slave) ;; _ <- request ;; ret tt.

(** [async with asyncio.timeout(ms / 1000): body].  The deadline is armed
    on entry and disarmed on exit; a cancellation delivered by this timer
    leaves the block as [TimeoutError].  When the caller already runs under
    a deadline that comes first, that one stays armed and its cancellation
    goes through unchanged. *)
Definition timeout {A} (ms : Z) (body : Async A) : Async A :=
  fun w =>
    let outer := deadline w in
    let D := now w + ms in
    let mine := match outer with Some D0 => D <? D0 | None => true end in
    let arm := {| now := now w;
                  deadline := if mine then Some D else outer;
                  served := served w; link := link w; trace := trace w |} in
    let (r, w') := body arm in
    let disarm := {| now := now w'; deadline := outer; served := served w';
                     link := link w'; trace := trace w' |} in
    match r with
    | Raise CancelledError =>
        if mine then (Raise TimeoutError, disarm)
        else (Raise CancelledError, disarm)
    | _ => (r, disarm)
    end.

(** [result[0]] on a Python list. *)
Definition item0 (result : list Z) : Async Z :=
  match result with
  | x :: _ => ret x
  | [] => raise IndexError
  end.

(** ** registers.py

    The register map is not among the sources at hand; the driver only
    names its entries, so the addresses are parameters of the session. *)

Record ControlRegisterMap : Type :=
  { CONTROL : Z;
    POSITION : Z;
    SPEED_FORCE : Z }.

Record StatusRegisterMap : Type :=
  { STATUS : Z;
    FAULT_POSITION_STATUS : Z;
    SPEED_FORCE_STATUS : Z;
    VOLTAGE_TEMPERATURE_STATUS : Z;
    SOFTWARE_INFO : Z }.

(** ** __init__.py *)

(** The serial client handle, named by its port. *)
Inductive AsyncModbusSerialClient : Type :=
| SerialPort (port : string).

Record HomwingGripper : Type :=
  { _client : AsyncModbusSerialClient;
    _address : Z }.

Definition __init__ (client : AsyncModbusSerialClient) (address : Z)
  : HomwingGripper :=
  {| _client := client; _address := address |}.

(** The [address] property and its setter ([inl] is the raised exception). *)
Definition address (self : HomwingGripper) : Z := _address self.

Definition address_setter (self : HomwingGripper) (value : Z)
  : exn + HomwingGripper :=
  if value >? 247
  then inl (ValueError "Invalid Address")
  else inr {| _client := _client self; _address := value |}.

Section Session.

Variable ControlRegisters : ControlRegisterMap.
Variable StatusRegisters : StatusRegisterMap.

Definition _read_gripper_status (self : HomwingGripper) : Async (list Z) :=
  read_input_registers (STATUS StatusRegisters) 2 (_address self).

Definition read_gripper_status (self : HomwingGripper)
  : Async GripperStatus.t :=
  result <- _read_gripper_status self ;;
  r0 <- item0 result ;;
  match GripperStatus.from_u8 (Z.land r0 0xFF) with
  | Some status => ret status
  | None => raise (ValueError "not a valid enum value")
  end.

Definition _read_fault_position (self : HomwingGripper) : Async (list Z) :=
  read_input_registers (FAULT_POSITION_STATUS StatusRegisters) 1
    (_address self).

Definition read_fault_position (self : HomwingGripper) : Async FaultPosition :=
  result <- _read_fault_position self ;;
  r0 <- item0 result ;;
  ret {| fault := GripperFaultStatus.from_u8 (Z.land r0 0xFF);
         fp_position := Z.land (Z.shiftr r0 8) 0xFF |}.

Definition _read_speed_force (self : HomwingGripper) : Async (list Z) :=
  read_input_registers (SPEED_FORCE_STATUS StatusRegisters) 1 (_address self).

Definition read_speed_force (self : HomwingGripper) : Async SpeedForce :=
  result <- _read_speed_force self ;;
  r0 <- item0 result ;;
  ret {| sf_speed := Z.land r0 0xFF;
         sf_force := Z.land (Z.shiftr r0 8) 0xFF |}.

Definition _read_voltage_temperature (self : HomwingGripper)
  : Async (list Z) :=
  read_input_registers (VOLTAGE_TEMPERATURE_STATUS StatusRegisters) 1
    (_address self).

Definition read_voltage_temperature (self : HomwingGripper)
  : Async VoltageTemperature :=
  result <- _read_voltage_temperature self ;;
  r0 <- item0 result ;;
  ret {| voltage := Z.land r0 0xFF;
         temperature := Z.land (Z.shiftr r0 8) 0xFF |}.

Definition read_software_version (self : HomwingGripper) : Async (list Z) :=
  read_input_registers (SOFTWARE_INFO StatusRegisters) 1 (_address self).

Definition write_control_register (self : HomwingGripper)
  (control : ControlRegister.t) : Async unit :=
  write_registers (CONTROL ControlRegisters) [ControlRegister.to_u8 control]
    (_address self).

Definition clear_control_register (self : HomwingGripper) : Async unit :=
  write_control_register self
    {| ControlRegister.enable := false;
       ControlRegister.mode := false;
       ControlRegister.move_to_targret := false;
       ControlRegister.automatic_inspection := false;
       ControlRegister.automatic_patrol_inspection := false |}.

Definition activate (self : HomwingGripper) : Async unit :=
  write_control_register self
    {| ControlRegister.enable := true;
       ControlRegister.mode := false;
       ControlRegister.move_to_targret := false;
       ControlRegister.automatic_inspection := false;
       ControlRegister.automatic_patrol_inspection := false |}.

(** [while True:] loops are unrolled at most [fuel] times; a loop that is
    still going then is [Pending]. *)
Fixpoint wait_for_move (fuel : nat) (self : HomwingGripper) : Async unit :=
  match fuel with
  | O => pending
  | S fuel' =>
      result <- read_gripper_status self ;;
      if negb (GOBJ.eqb (GripperStatus.gOBJ result) GOBJ.MOVING_TO_POSITION)
      then ret tt
      else (sleep 100 ;; wait_for_move fuel' self)
  end.

Definition _set_target_position (self : HomwingGripper) (position : Z)
  : Async unit :=
  write_registers (POSITION ControlRegisters) [Z.shiftl position 8]
    (_address self).

Definition set_target_position (self : HomwingGripper) (position : Z)
  : Async unit :=
  _set_target_position self position.

Definition _set_speed_force (self : HomwingGripper) (speed force : Z)
  : Async unit :=
  write_registers (SPEED_FORCE ControlRegisters) [speed + Z.shiftl force 8]
    (_address self).

Definition set_speed_force (self : HomwingGripper) (speed force : Z)
  : Async unit :=
  _set_speed_force self speed force.

Definition stop (self : HomwingGripper) : Async unit :=
  write_control_register self
    {| ControlRegister.enable := true;
       ControlRegister.mode := false;
       ControlRegister.move_to_targret := false;
       ControlRegister.automatic_inspection := false;
       ControlRegister.automatic_patrol_inspection := false |}.

Definition execute_move (self : HomwingGripper) : Async unit :=
  write_control_register self
    {| ControlRegister.enable := true;
       ControlRegister.mode := false;
       ControlRegister.move_to_targret := true;
       ControlRegister.automatic_inspection := false;
       ControlRegister.automatic_patrol_inspection := false |}.

Definition move_to_position (self : HomwingGripper) (position : Z)
  : Async unit :=
  _set_target_position self position ;;
  execute_move self.

Definition execute_control_movement (self : HomwingGripper)
  (movement : ExecuteControlMovement) : Async unit :=
  set_speed_force self (speed movement) (force movement) ;;
  move_to_position self (position movement) ;;
  execute_move self.

Fixpoint wait_for_activation_loop (fuel : nat) (self : HomwingGripper)
  : Async unit :=
  match fuel with
  | O => pending
  | S fuel' =>
      result <- read_gripper_status self ;;
      if GSTA.eqb (GripperStatus.gSTA result) GSTA.ACTIVATED
      then ret tt
      else (sleep 100 ;; wait_for_activation_loop fuel' self)
  end.

Definition wait_for_activation (fuel : nat) (self : HomwingGripper)
  : Async unit :=
  timeout 5000 (wait_for_activation_loop fuel self).

End Session.

(** ** Vocabulary of the properties *)

(** No armed deadline is reached within the next [d] ms. *)
Definition alive (w : World) (d : Z) : Prop :=
  match deadline w with
  | Some D => now w + d < D
  | None => True
  end.

(** The world after [n] more requests, [d] more ms and the events [es]. *)
Definition later (w : World) (d : Z) (n : nat) (es : list Event) : World :=
  {| now := now w + d; deadline := deadline w; served := n + served w;
     link := link w; trace := trace w ++ es |}.

(** What a reply makes [read_gripper_status] see: the decoded status of the
    low byte of the first register, when there is one. *)
Definition seen (r : Reply) : option GripperStatus.t :=
  match payload r with
  | inr (x :: _) => GripperStatus.from_u8 (Z.land x 0xFF)
  | _ => None
  end.

(** The reply is a status whose activation state is [ACTIVATED]. *)
Definition reports_activated (r : Reply) : Prop :=
  exists st, seen r = Some st /\ GripperStatus.gSTA st = GSTA.ACTIVATED.

(** The reply is a status whose activation state is not [ACTIVATED]. *)
Definition reports_not_activated (r : Reply) : Prop :=
  exists st, seen r = Some st /\ GripperStatus.gSTA st <> GSTA.ACTIVATED.

(** The reply is a status whose motion state is [MOVING_TO_POSITION]. *)
Definition reports_moving (r : Reply) : Prop :=
  exists st,
    seen r = Some st /\ GripperStatus.gOBJ st = GOBJ.MOVING_TO_POSITION.

(** The reply is a status whose motion state is not [MOVING_TO_POSITION]. *)
Definition reports_move_done (r : Reply) : Prop :=
  exists st,
    seen r = Some st /\ GripperStatus.gOBJ st <> GOBJ.MOVING_TO_POSITION.

(** Time, counted from the start of a polling loop whose first request is
    number [s], at which the reply to its [k]-th poll (from 0) arrives:
    each earlier poll costs its latency and the 100 ms sleep. *)
Fixpoint poll_done (l : nat -> Reply) (s k : nat) : Z :=
  match k with
  | O => latency (l s)
  | S k' => latency (l s) + 100 + poll_done l (S s) k'
  end.

(** The events of [k + 1] polls of register [a]: a read, then a 100 ms
    sleep before every further read. *)
Fixpoint poll_events (a slave : Z) (k : nat) : list Event :=
  match k with
  | O => [ReadInput a 2 slave]
  | S k' => ReadInput a 2 slave :: Sleep 100 :: poll_events a slave k'
  end.

(** A test bench: the register addresses quoted in the docstrings of
    [core.py] for the control block, a status block, a gripper at address 9
    as in [tests/test_connection.py], and stub links. *)
Definition bench_control : ControlRegisterMap :=
  {| CONTROL := 0x03E8; POSITION := 0x03E9; SPEED_FORCE := 0x03EA |}.

Definition bench_status : StatusRegisterMap :=
  {| STATUS := 0x07D0;
     FAULT_POSITION_STATUS := 0x07D1;
     SPEED_FORCE_STATUS := 0x07D2;
     VOLTAGE_TEMPERATURE_STATUS := 0x07D3;
     SOFTWARE_INFO := 0x07D4 |}.

Definition bench_gripper : HomwingGripper :=
  __init__ (SerialPort "/dev/tty.usbserial-B001K430") 9.

(** A stub that answers the [n]-th request at once with the [n]-th entry
    of [script], and with [last] once the script is used up. *)
Definition stub (script : list (list Z)) (last : list Z) : nat -> Reply :=
  fun n => {| latency := 0; payload := inr (nth n script last) |}.

Definition boot (l : nat -> Reply) : World :=
  {| now := 0; deadline := None; served := 0; link := l; trace := [] |}.

(** The four writes of [execute_control_movement], in order. *)
Definition movement_writes (regs : ControlRegisterMap)
  (self : HomwingGripper) (movement : ExecuteControlMovement) : list Event :=
  [ WriteRegs (SPEED_FORCE regs)
      [speed movement + Z.shiftl (force movement) 8] (_address self);
    WriteRegs (POSITION regs) [Z.shiftl (position movement) 8]
      (_address self);
    WriteRegs (CONTROL regs) [0x09] (_address self);
    WriteRegs (CONTROL regs) [0x09] (_address self) ].

(** The coroutine never ends in [TimeoutError], in any world. *)
Definition never_times_out {A} (m : Async A) : Prop :=
  forall w : World, fst (m w) <> Raise TimeoutError.

(** The stub of the activation scenario: the status reads report
    ACTIVATING, ACTIVATING, then ACTIVATED (bits 4-5 of the low byte). *)
Definition activation_stub : nat -> Reply :=
  stub [[0x10; 0]; [0x10; 0]] [0x31; 0].

(** * Properties *)

(** ** Bit-level facts used by the codec *)

Lemma py_bool_bit (v k : Z) :
  0 <= k -> py_bool (Z.land v (Z.shiftl 1 k)) = Z.testbit v k.
Proof.
  intros Hk. unfold py_bool. rewrite Z.shiftl_1_l.
  destruct (Z.testbit v k) eqn:Hb.
  - apply negb_true_iff, Z.eqb_neq. intros H0.
    assert (Hk' : Z.testbit (Z.land v (2 ^ k)) k = true)
      by (rewrite Z.land_spec, Hb, Z.pow2_bits_true; auto).
    rewrite H0, Z.bits_0 in Hk'. discriminate.
  - apply negb_false_iff, Z.eqb_eq, Z.bits_inj'. intros n Hn.
    rewrite Z.land_spec, Z.bits_0, Z.pow2_bits_eqb by assumption.
    destruct (Z.eqb_spec k n) as [->|_].
    + now rewrite Hb.
    + apply andb_false_r.
Qed.

Lemma land3_range (v : Z) : 0 <= Z.land v 3 < 4.
Proof.
  change 3 with (Z.ones 2). rewrite Z.land_ones by lia.
  change (2 ^ 2) with 4. apply Z.mod_pos_bound. lia.
Qed.

Lemma GSTA_of_int_land3 (v : Z) :
  exists s, GSTA.of_int (Z.land v 3) = Some s /\ GSTA.value s = Z.land v 3.
Proof.
  pose proof (land3_range v) as H.
  assert (C : Z.land v 3 = 0 \/ Z.land v 3 = 1 \/ Z.land v 3 = 2 \/
              Z.land v 3 = 3) by lia.
  destruct C as [E|[E|[E|E]]]; rewrite E; eexists; split; reflexivity.
Qed.

Lemma GOBJ_of_int_land3 (v : Z) :
  exists s, GOBJ.of_int (Z.land v 3) = Some s /\ GOBJ.value s = Z.land v 3.
Proof.
  pose proof (land3_range v) as H.
  assert (C : Z.land v 3 = 0 \/ Z.land v 3 = 1 \/ Z.land v 3 = 2 \/
              Z.land v 3 = 3) by lia.
  destruct C as [E|[E|[E|E]]]; rewrite E; eexists; split; reflexivity.
Qed.

(** A byte and a multiple of 256 share no bit, so adding them is or-ing
    them. *)
Lemma byte_add_is_lor (lo hi : Z) :
  0 <= lo <= 255 -> lo + Z.shiftl hi 8 = Z.lor lo (Z.shiftl hi 8).
Proof.
  intros Hlo.
  assert (Hdisj : Z.land lo (Z.shiftl hi 8) = 0).
  { apply Z.bits_inj'. intros n Hn.
    rewrite Z.land_spec, Z.bits_0.
    destruct (Z.ltb_spec n 8).
    - rewrite (Z.shiftl_spec_low hi 8 n) by assumption. apply andb_false_r.
    - assert (Hb : Z.testbit lo n = false).
      { destruct (Z.eq_dec lo 0) as [->|Hne]; [apply Z.bits_0|].
        apply Z.bits_above_log2; [lia|].
        apply Z.lt_le_trans with 8; [|assumption].
        apply Z.log2_lt_pow2; [lia|]. change (2 ^ 8) with 256. lia. }
      now rewrite Hb. }
  rewrite <- Z.lxor_lor by assumption.
  now apply Z.add_nocarry_lxor.
Qed.

(** ** C1: the control byte *)

(** C1.  For every control command, [to_u8] is the OR of the fixed bit
    positions: [enable] is bit 0, [mode] bit 1, [move_to_targret] bit 3,
    [automatic_inspection] bit 4, [automatic_patrol_inspection] bit 5; bit 2
    and every bit above bit 5 are never set.  The command with only
    [enable] and [move_to_targret] encodes to 0x09. *)
Theorem C1_to_u8_bit_layout :
  (forall cmd : ControlRegister.t,
      ControlRegister.to_u8 cmd =
        Z.lor (Z.shiftl (Z.b2z (ControlRegister.enable cmd)) 0)
          (Z.lor (Z.shiftl (Z.b2z (ControlRegister.mode cmd)) 1)
             (Z.lor (Z.shiftl (Z.b2z (ControlRegister.move_to_targret cmd)) 3)
                (Z.lor
                   (Z.shiftl (Z.b2z (ControlRegister.automatic_inspection cmd)) 4)
                   (Z.shiftl
                      (Z.b2z (ControlRegister.automatic_patrol_inspection cmd))
                      5))))
      /\ Z.testbit (ControlRegister.to_u8 cmd) 0 = ControlRegister.enable cmd
      /\ Z.testbit (ControlRegister.to_u8 cmd) 1 = ControlRegister.mode cmd
      /\ Z.testbit (ControlRegister.to_u8 cmd) 2 = false
      /\ Z.testbit (ControlRegister.to_u8 cmd) 3 =
           ControlRegister.move_to_targret cmd
      /\ Z.testbit (ControlRegister.to_u8 cmd) 4 =
           ControlRegister.automatic_inspection cmd
      /\ Z.testbit (ControlRegister.to_u8 cmd) 5 =
           ControlRegister.automatic_patrol_inspection cmd
      /\ 0 <= ControlRegister.to_u8 cmd < 64)
  /\ ControlRegister.to_u8
       {| ControlRegister.enable := true;
          ControlRegister.mode := false;
          ControlRegister.move_to_targret := true;
          ControlRegister.automatic_inspection := false;
          ControlRegister.automatic_patrol_inspection := false |} = 0x09.
Proof.
  split; [|reflexivity].
  intros [[] [] [] [] []]; cbv; intuition congruence.
Qed.

(** ** C2: decoding the status byte *)

(** C2.  For every integer word (so for every word in 0..65535),
    [GripperStatus.from_u8] succeeds, takes the four flags from bits 0 to 3,
    the activation state from [(word >> 4) & 0b11] and the motion state from
    [(word >> 6) & 0b11]. *)
Theorem C2_from_u8_total (word : Z) :
  exists st : GripperStatus.t,
    GripperStatus.from_u8 word = Some st
    /\ GripperStatus.gACT st = Z.testbit word 0
    /\ GripperStatus.gDropSta st = Z.testbit word 1
    /\ GripperStatus.gMODE st = Z.testbit word 2
    /\ GripperStatus.gGTO st = Z.testbit word 3
    /\ GSTA.value (GripperStatus.gSTA st) = Z.land (Z.shiftr word 4) 3
    /\ GOBJ.value (GripperStatus.gOBJ st) = Z.land (Z.shiftr word 6) 3.
Proof.
  unfold GripperStatus.from_u8.
  destruct (GSTA_of_int_land3 (Z.shiftr word 4)) as (sta & -> & Hsta).
  destruct (GOBJ_of_int_land3 (Z.shiftr word 6)) as (obj & -> & Hobj).
  eexists; split; [reflexivity|]. cbn [GripperStatus.gACT
    GripperStatus.gDropSta GripperStatus.gMODE GripperStatus.gGTO
    GripperStatus.gSTA GripperStatus.gOBJ].
  rewrite !py_bool_bit by lia. repeat split; assumption.
Qed.

(** ** How the primitives move the world *)

Lemma later_later w d n es d' n' es' :
  later (later w d n es) d' n' es' = later w (d + d') (n' + n) (es ++ es').
Proof.
  unfold later; cbn. f_equal; [lia | lia | apply eq_sym, app_assoc].
Qed.

Lemma suspend_alive w d :
  alive w d ->
  suspend d w =
    (Return tt,
     {| now := now w + d; deadline := deadline w; served := served w;
        link := link w; trace := trace w |}).
Proof.
  unfold alive, suspend. destruct (deadline w) as [D|]; [|reflexivity].
  intros H. destruct (Z.leb_spec D (now w + d)); [lia | reflexivity].
Qed.

Lemma suspend_cancelled w d D :
  deadline w = Some D -> D <= now w + d ->
  suspend d w =
    (Raise CancelledError,
     {| now := D; deadline := deadline w; served := served w;
        link := link w; trace := trace w |}).
Proof.
  unfold suspend. intros -> H.
  destruct (Z.leb_spec D (now w + d)); [reflexivity | lia].
Qed.

Lemma read_input_registers_ok a c s w regs :
  alive w (latency (link w (served w))) ->
  payload (link w (served w)) = inr regs ->
  read_input_registers a c s w =
    (Return regs, later w (latency (link w (served w))) 1 [ReadInput a c s]).
Proof.
  intros Ha Hp. unfold read_input_registers, bind, emit, request.
  cbn [now deadline served link trace].
  rewrite suspend_alive by exact Ha. cbn [now deadline served link trace].
  rewrite Hp. reflexivity.
Qed.

Lemma read_input_registers_cancelled a c s w D :
  deadline w = Some D -> D <= now w + latency (link w (served w)) ->
  read_input_registers a c s w =
    (Raise CancelledError,
     {| now := D; deadline := deadline w; served := S (served w);
        link := link w; trace := trace w ++ [ReadInput a c s] |}).
Proof.
  intros Hd Hl. unfold read_input_registers, bind, emit, request.
  cbn [now deadline served link trace].
  rewrite (suspend_cancelled _ _ D) by assumption. reflexivity.
Qed.

Lemma write_registers_ok a v s w regs :
  alive w (latency (link w (served w))) ->
  payload (link w (served w)) = inr regs ->
  write_registers a v s w =
    (Return tt, later w (latency (link w (served w))) 1 [WriteRegs a v s]).
Proof.
  intros Ha Hp. unfold write_registers, bind, emit, request.
  cbn [now deadline served link trace].
  rewrite suspend_alive by exact Ha. cbn [now deadline served link trace].
  rewrite Hp. reflexivity.
Qed.

(** Whatever the link answers, a write is put on the wire exactly once and
    either returns or raises. *)
Lemma write_registers_cases a v s w :
  exists w',
    (write_registers a v s w = (Return tt, w')
     \/ exists e, write_registers a v s w = (Raise e, w'))
    /\ trace w' = trace w ++ [WriteRegs a v s].
Proof.
  unfold write_registers, bind, emit, request, suspend, ret.
  cbn [now deadline served link trace].
  destruct (deadline w) as [D|];
    [destruct (D <=? now w + latency (link w (served w)))|];
    cbn [now deadline served link trace];
    try destruct (payload (link w (served w)));
    eexists;
    (split; [first [left; reflexivity | right; eexists; reflexivity]
            | reflexivity]).
Qed.

Lemma sleep_alive w ms :
  alive w ms -> sleep ms w = (Return tt, later w ms 0 [Sleep ms]).
Proof.
  intros Ha. unfold sleep, bind, emit.
  rewrite suspend_alive by exact Ha. reflexivity.
Qed.

Lemma sleep_cancelled w ms D :
  deadline w = Some D -> D <= now w + ms ->
  sleep ms w =
    (Raise CancelledError,
     {| now := D; deadline := deadline w; served := served w;
        link := link w; trace := trace w ++ [Sleep ms] |}).
Proof.
  intros Hd Hl. unfold sleep, bind, emit.
  rewrite (suspend_cancelled _ _ D) by assumption. reflexivity.
Qed.

(** ** C5: fault flags and position *)

(** C5.  When the link answers the fault/position read with a register
    [word], [read_fault_position] returns the fault flags decoded from the
    low byte [word & 0xFF] (bits 0 to 6 of that byte, in the order of the
    record) and the position [(word >> 8) & 0xFF].  For 0x0203 the
    communication fault is set and the position is 2; for 0x0105 exactly the
    control command error and the overcurrent fault are set and the position
    is 1. *)
Theorem C5_read_fault_position (regs : StatusRegisterMap)
  (self : HomwingGripper) (w : World) (word : Z) (rest : list Z) :
  deadline w = None ->
  payload (link w (served w)) = inr (word :: rest) ->
  exists fp : FaultPosition,
    fst (read_fault_position regs self w) = Return fp
    /\ fault fp = GripperFaultStatus.from_u8 (Z.land word 0xFF)
    /\ fp_position fp = Z.land (Z.shiftr word 8) 0xFF
    /\ GripperFaultStatus.control_command_error (fault fp) =
         Z.testbit (Z.land word 0xFF) 0
    /\ GripperFaultStatus.communication_fault (fault fp) =
         Z.testbit (Z.land word 0xFF) 1
    /\ GripperFaultStatus.overcurrent_fault (fault fp) =
         Z.testbit (Z.land word 0xFF) 2
    /\ GripperFaultStatus.voltage_fault (fault fp) =
         Z.testbit (Z.land word 0xFF) 3
    /\ GripperFaultStatus.enabling_fault (fault fp) =
         Z.testbit (Z.land word 0xFF) 4
    /\ GripperFaultStatus.overtemperature_fault (fault fp) =
         Z.testbit (Z.land word 0xFF) 5
    /\ GripperFaultStatus.self_fault (fault fp) =
         Z.testbit (Z.land word 0xFF) 6
    /\ (word = 0x0203 ->
        GripperFaultStatus.communication_fault (fault fp) = true
        /\ fp_position fp = 2)
    /\ (word = 0x0105 ->
        fault fp =
          {| GripperFaultStatus.control_command_error := true;
             GripperFaultStatus.communication_fault := false;
             GripperFaultStatus.overcurrent_fault := true;
             GripperFaultStatus.voltage_fault := false;
             GripperFaultStatus.enabling_fault := false;
             GripperFaultStatus.overtemperature_fault := false;
             GripperFaultStatus.self_fault := false |}
        /\ fp_position fp = 1).
Proof.
  intros Hd Hp.
  unfold read_fault_position, _read_fault_position, bind.
  rewrite (read_input_registers_ok _ _ _ _ (word :: rest))
    by (unfold alive; rewrite ?Hd; trivial).
  cbn [item0 ret fst]. eexists; split; [reflexivity|].
  cbn [fault fp_position].
  split; [reflexivity|]. split; [reflexivity|].
  unfold GripperFaultStatus.from_u8.
  cbn [GripperFaultStatus.control_command_error
       GripperFaultStatus.communication_fault
       GripperFaultStatus.overcurrent_fault GripperFaultStatus.voltage_fault
       GripperFaultStatus.enabling_fault
       GripperFaultStatus.overtemperature_fault
       GripperFaultStatus.self_fault].
  rewrite !py_bool_bit by lia.
  repeat (split; [reflexivity|]).
  split; intros ->; split; reflexivity.
Qed.

Lemma C5_read_fault_position_witness :
  exists fp : FaultPosition,
    fst (read_fault_position bench_status bench_gripper
           (boot (stub [] [0x0105]))) = Return fp
    /\ GripperFaultStatus.control_command_error (fault fp) = true
    /\ GripperFaultStatus.overcurrent_fault (fault fp) = true
    /\ fp_position fp = 1.
Proof.
  destruct (C5_read_fault_position bench_status bench_gripper
              (boot (stub [] [0x0105])) 0x0105 [] eq_refl eq_refl)
    as (fp & Hrun & _ & Hpos & Hcce & _ & Hoc & _).
  exists fp. repeat split; assumption.
Defined.

(** ** C7: the speed/force word *)

(** C7.  For speed and force in 0..255, the single register value that
    [_set_speed_force] (and so [set_speed_force]) hands to the client for
    the SPEED_FORCE register is [speed | (force << 8)]. *)
Theorem C7_set_speed_force_word (regs : ControlRegisterMap)
  (self : HomwingGripper) (speed force : Z) (w : World) :
  0 <= speed <= 255 ->
  0 <= force <= 255 ->
  trace (snd (_set_speed_force regs self speed force w)) =
    trace w ++ [WriteRegs (SPEED_FORCE regs)
                  [Z.lor speed (Z.shiftl force 8)] (_address self)]
  /\ set_speed_force regs self speed force w =
       _set_speed_force regs self speed force w.
Proof.
  intros Hs _. split; [|reflexivity].
  unfold _set_speed_force.
  destruct (write_registers_cases (SPEED_FORCE regs)
              [speed + Z.shiftl force 8] (_address self) w)
    as (w' & [Hrun | [e Hrun]] & Htr);
    rewrite Hrun; cbn [snd]; rewrite Htr, byte_add_is_lor by exact Hs;
    reflexivity.
Qed.

Lemma C7_set_speed_force_word_witness :
  trace (snd (_set_speed_force bench_control bench_gripper 255 20
                (boot (stub [] [])))) =
    [WriteRegs 0x03EA [Z.lor 255 (Z.shiftl 20 8)] 9]
  /\ set_speed_force bench_control bench_gripper 255 20 (boot (stub [] [])) =
       _set_speed_force bench_control bench_gripper 255 20
         (boot (stub [] [])).
Proof.
  apply (C7_set_speed_force_word bench_control bench_gripper 255 20
           (boot (stub [] []))); lia.
Defined.

(** ** C8: the position word *)

(** C8, as stated, fails: for position 256 the value handed to the client
    is 65536, not [(256 << 8)] cut to 16 bits, which is 0. *)
Lemma C8_truncation_counterexample :
  ~ (forall (regs : ControlRegisterMap) (self : HomwingGripper)
            (position : Z) (w : World),
        0 <= position ->
        trace (snd (_set_target_position regs self position w)) =
          trace w ++ [WriteRegs (POSITION regs)
                        [Z.land (Z.shiftl position 8) 0xFFFF]
                        (_address self)]).
Proof.
  intros H.
  specialize (H bench_control bench_gripper 256 (boot (stub [] []))
                ltac:(lia)).
  cbv in H. discriminate H.
Qed.

(** C8, amended.  [_set_target_position] (and so [set_target_position])
    hands to the client, for the POSITION register, exactly
    [position << 8], that is [position * 256], with no truncation; this
    value fits 16 bits (it equals itself cut to 16 bits) exactly when the
    position is in 0..255. *)
Theorem C8_set_target_position_word (regs : ControlRegisterMap)
  (self : HomwingGripper) (position : Z) (w : World) :
  trace (snd (_set_target_position regs self position w)) =
    trace w ++ [WriteRegs (POSITION regs) [Z.shiftl position 8]
                  (_address self)]
  /\ set_target_position regs self position w =
       _set_target_position regs self position w
  /\ Z.shiftl position 8 = position * 256
  /\ (Z.shiftl position 8 = Z.land (Z.shiftl position 8) 0xFFFF
      <-> 0 <= position <= 255).
Proof.
  assert (Hmul : Z.shiftl position 8 = position * 256)
    by (rewrite Z.shiftl_mul_pow2 by lia; reflexivity).
  split; [|split; [reflexivity|split; [exact Hmul|]]].
  - unfold _set_target_position.
    destruct (write_registers_cases (POSITION regs) [Z.shiftl position 8]
                (_address self) w) as (w' & [Hrun | [e Hrun]] & Htr);
      rewrite Hrun; exact Htr.
  - rewrite Hmul. change 0xFFFF with (Z.ones 16).
    rewrite Z.land_ones by lia. change (2 ^ 16) with 65536.
    split.
    + intros E.
      pose proof (Z.mod_pos_bound (position * 256) 65536 ltac:(lia)). lia.
    + intros Hr. symmetry. apply Z.mod_small. lia.
Qed.

(** ** C9: stop and activate *)

(** C9.  [stop] and [activate] are the same operation: in every world they
    produce the same result and the same world, and each puts exactly one
    write of the control byte 0x01 to the CONTROL register on the wire. *)
Theorem C9_stop_is_activate (regs : ControlRegisterMap)
  (self : HomwingGripper) (w : World) :
  stop regs self w = activate regs self w
  /\ trace (snd (stop regs self w)) =
       trace w ++ [WriteRegs (CONTROL regs) [0x01] (_address self)]
  /\ trace (snd (activate regs self w)) =
       trace w ++ [WriteRegs (CONTROL regs) [0x01] (_address self)].
Proof.
  assert (H : trace (snd (activate regs self w)) =
                trace w ++ [WriteRegs (CONTROL regs) [0x01] (_address self)]).
  { unfold activate, write_control_register.
    destruct (write_registers_cases (CONTROL regs) [0x01] (_address self) w)
      as (w' & [Hrun | [e Hrun]] & Htr);
      cbn [ControlRegister.to_u8 ControlRegister.enable ControlRegister.mode
           ControlRegister.move_to_targret
           ControlRegister.automatic_inspection
           ControlRegister.automatic_patrol_inspection Z.lor];
      rewrite Hrun; exact Htr. }
  repeat split; exact H.
Qed.

(** ** C10: the device address *)

(** C10.  The constructor stores whatever address it is given, also above
    247 and below 0.  The setter raises exactly for values above 247 and
    otherwise stores the value, so every negative value is accepted. *)
Theorem C10_address_validation :
  (forall (client : AsyncModbusSerialClient) (a : Z),
      address (__init__ client a) = a)
  /\ (forall (self : HomwingGripper) (value : Z),
         247 < value ->
         address_setter self value = inl (ValueError "Invalid Address"))
  /\ (forall (self : HomwingGripper) (value : Z),
         value <= 247 ->
         address_setter self value =
           inr {| _client := _client self; _address := value |})
  /\ (forall (self : HomwingGripper) (value : Z),
         value < 0 ->
         exists self', address_setter self value = inr self'
                       /\ address self' = value).
Proof.
  assert (Hok : forall self value, value <= 247 ->
            address_setter self value =
              inr {| _client := _client self; _address := value |}).
  { intros self value H. unfold address_setter.
    destruct (Z.gtb_spec value 247); [lia | reflexivity]. }
  repeat split.
  - intros self value H. unfold address_setter.
    destruct (Z.gtb_spec value 247); [reflexivity | lia].
  - exact Hok.
  - intros self value H. eexists. split; [apply Hok; lia | reflexivity].
Qed.

Lemma C10_address_validation_witness :
  address (__init__ (SerialPort "COM1") 300) = 300
  /\ address (__init__ (SerialPort "COM1") (-5)) = -5
  /\ address_setter bench_gripper 248 = inl (ValueError "Invalid Address")
  /\ address_setter bench_gripper 247 =
       inr {| _client := _client bench_gripper; _address := 247 |}
  /\ exists self', address_setter bench_gripper (-1) = inr self'
                   /\ address self' = -1.
Proof.
  destruct C10_address_validation as (Hinit & Hbad & Hok & Hneg).
  split; [apply Hinit|]. split; [apply Hinit|].
  split; [apply Hbad; lia|]. split; [apply Hok; lia|].
  apply Hneg; lia.
Defined.

(** ** C6: the order of the writes of a controlled movement *)

Ltac next_write :=
  match goal with
  | |- context [write_registers ?a ?v ?s ?w] =>
      let w' := fresh "w" in
      let H := fresh "Hrun" in
      let e := fresh "e" in
      let T := fresh "Htr" in
      destruct (write_registers_cases a v s w) as (w' & [H | [e H]] & T);
      rewrite H; cbn iota beta
  end.

Lemma execute_control_movement_cases (regs : ControlRegisterMap)
  (self : HomwingGripper) (movement : ExecuteControlMovement) (w : World) :
  exists n : nat,
    (n <= 4)%nat
    /\ trace (snd (execute_control_movement regs self movement w)) =
         trace w ++ firstn n (movement_writes regs self movement)
    /\ (fst (execute_control_movement regs self movement w) = Return tt ->
        n = 4%nat).
Proof.
  unfold execute_control_movement, set_speed_force, _set_speed_force,
    move_to_position, _set_target_position, execute_move,
    write_control_register, bind, movement_writes.
  cbn [ControlRegister.to_u8 ControlRegister.enable ControlRegister.mode
       ControlRegister.move_to_targret ControlRegister.automatic_inspection
       ControlRegister.automatic_patrol_inspection Z.lor Pos.lor].
  next_write; [next_write; [next_write; [next_write|]|]|];
    cbn [fst snd];
    repeat match goal with H : trace _ = _ |- _ => rewrite H; clear H end;
    rewrite <- ?app_assoc; cbn [app].
  - exists 4%nat. split; [lia | split; [reflexivity | reflexivity]].
  - exists 4%nat. split; [lia | split; [reflexivity | reflexivity]].
  - exists 3%nat. split; [lia | split; [reflexivity | discriminate]].
  - exists 2%nat. split; [lia | split; [reflexivity | discriminate]].
  - exists 1%nat. split; [lia | split; [reflexivity | discriminate]].
Qed.

Lemma execute_control_movement_ok (regs : ControlRegisterMap)
  (self : HomwingGripper) (movement : ExecuteControlMovement) (w : World) :
  deadline w = None ->
  (forall i : nat, (i < 4)%nat ->
     exists r, payload (link w (i + served w)) = inr r) ->
  fst (execute_control_movement regs self movement w) = Return tt.
Proof.
  intros Hd Hok.
  destruct (Hok 0%nat ltac:(lia)) as [r0 H0].
  destruct (Hok 1%nat ltac:(lia)) as [r1 H1].
  destruct (Hok 2%nat ltac:(lia)) as [r2 H2].
  destruct (Hok 3%nat ltac:(lia)) as [r3 H3].
  unfold execute_control_movement, set_speed_force, _set_speed_force,
    move_to_position, _set_target_position, execute_move,
    write_control_register, bind.
  rewrite (write_registers_ok _ _ _ w r0)
    by (unfold alive; rewrite ?Hd; trivial).
  rewrite (write_registers_ok _ _ _ _ r1)
    by (unfold alive; cbn; rewrite ?Hd; trivial).
  rewrite (write_registers_ok _ _ _ _ r2)
    by (unfold alive; cbn; rewrite ?Hd; trivial).
  rewrite (write_registers_ok _ _ _ _ r3)
    by (unfold alive; cbn; rewrite ?Hd; trivial).
  reflexivity.
Qed.

(** C6.  Whatever the link does, the writes that
    [execute_control_movement] puts on the wire are an initial part of:
    the speed/force word to SPEED_FORCE, the position word to POSITION, the
    control byte 0x09 to CONTROL (the end of [move_to_position]) and 0x09 to
    CONTROL again (its own [execute_move]); it returns only after all four,
    and it does return when the link answers the four writes.  0x09 carries
    the move-to-target bit (bit 3), so both parameter registers are written
    before any control write that has it. *)
Theorem C6_execute_control_movement_order (regs : ControlRegisterMap)
  (self : HomwingGripper) (movement : ExecuteControlMovement) (w : World) :
  (exists n : nat,
      (n <= 4)%nat
      /\ trace (snd (execute_control_movement regs self movement w)) =
           trace w ++ firstn n (movement_writes regs self movement)
      /\ (fst (execute_control_movement regs self movement w) = Return tt ->
          n = 4%nat))
  /\ (deadline w = None ->
      (forall i : nat, (i < 4)%nat ->
         exists r, payload (link w (i + served w)) = inr r) ->
      fst (execute_control_movement regs self movement w) = Return tt
      /\ trace (snd (execute_control_movement regs self movement w)) =
           trace w ++ movement_writes regs self movement)
  /\ movement_writes regs self movement =
       [ WriteRegs (SPEED_FORCE regs)
           [speed movement + Z.shiftl (force movement) 8] (_address self);
         WriteRegs (POSITION regs) [Z.shiftl (position movement) 8]
           (_address self);
         WriteRegs (CONTROL regs) [0x09] (_address self);
         WriteRegs (CONTROL regs) [0x09] (_address self) ]
  /\ Z.testbit 0x09 3 = true.
Proof.
  split; [apply execute_control_movement_cases|].
  split; [|split; reflexivity].
  intros Hd Hok.
  pose proof (execute_control_movement_ok regs self movement w Hd Hok) as Hr.
  split; [exact Hr|].
  destruct (execute_control_movement_cases regs self movement w)
    as (n & _ & Htr & Hn).
  rewrite Htr, (Hn Hr). reflexivity.
Qed.

Lemma C6_execute_control_movement_order_witness :
  fst (execute_control_movement bench_control bench_gripper
         {| force := 20; speed := 255; position := 100 |}
         (boot (stub [] []))) = Return tt
  /\ trace (snd (execute_control_movement bench_control bench_gripper
                   {| force := 20; speed := 255; position := 100 |}
                   (boot (stub [] [])))) =
       [ WriteRegs 0x03EA [5375] 9; WriteRegs 0x03E9 [25600] 9;
         WriteRegs 0x03E8 [9] 9; WriteRegs 0x03E8 [9] 9 ].
Proof.
  destruct (C6_execute_control_movement_order bench_control bench_gripper
              {| force := 20; speed := 255; position := 100 |}
              (boot (stub [] []))) as (_ & H & _).
  apply H; [reflexivity|]. intros i _. eexists. reflexivity.
Defined.

(** ** Polling loops *)

Lemma GOBJ_eqb_eq (a b : GOBJ.t) : GOBJ.eqb a b = true <-> a = b.
Proof.
  unfold GOBJ.eqb. rewrite Z.eqb_eq.
  split; [|now intros ->]. destruct a, b; cbn; congruence.
Qed.

Lemma GSTA_eqb_eq (a b : GSTA.t) : GSTA.eqb a b = true <-> a = b.
Proof.
  unfold GSTA.eqb. rewrite Z.eqb_eq.
  split; [|now intros ->]. destruct a, b; cbn; congruence.
Qed.

Lemma read_gripper_status_seen (regs : StatusRegisterMap)
  (self : HomwingGripper) (w : World) (st : GripperStatus.t) :
  alive w (latency (link w (served w))) ->
  seen (link w (served w)) = Some st ->
  read_gripper_status regs self w =
    (Return st,
     later w (latency (link w (served w))) 1
       [ReadInput (STATUS regs) 2 (_address self)]).
Proof.
  intros Ha Hs. unfold seen in Hs.
  destruct (payload (link w (served w))) as [c | [|x rest]] eqn:Hp;
    try discriminate.
  unfold read_gripper_status, _read_gripper_status, bind.
  rewrite (read_input_registers_ok _ _ _ _ (x :: rest)) by assumption.
  cbn [item0 ret]. rewrite Hs. reflexivity.
Qed.

Lemma alive_no_deadline (w : World) (d : Z) : deadline w = None -> alive w d.
Proof. unfold alive. now intros ->. Qed.

Lemma wait_for_move_returns (regs : StatusRegisterMap)
  (self : HomwingGripper) (k : nat) :
  forall (fuel : nat) (w : World),
    deadline w = None ->
    (forall i : nat, (i < k)%nat -> reports_moving (link w (i + served w))) ->
    reports_move_done (link w (k + served w)) ->
    (k < fuel)%nat ->
    wait_for_move regs fuel self w =
      (Return tt,
       later w (poll_done (link w) (served w) k) (S k)
         (poll_events (STATUS regs) (_address self) k)).
Proof.
  induction k as [|k IH]; intros fuel w Hd Hmov Hdone Hfuel;
    (destruct fuel as [|fuel]; [lia|]); cbn [wait_for_move]; unfold bind.
  - destruct Hdone as (st & Hs & Hne).
    rewrite (read_gripper_status_seen _ _ _ st)
      by (auto using alive_no_deadline).
    destruct (GOBJ.eqb (GripperStatus.gOBJ st) GOBJ.MOVING_TO_POSITION) eqn:E.
    + apply GOBJ_eqb_eq in E. contradiction.
    + reflexivity.
  - destruct (Hmov 0%nat ltac:(lia)) as (st & Hs & He).
    rewrite (read_gripper_status_seen _ _ _ st)
      by (auto using alive_no_deadline).
    rewrite He. cbn [GOBJ.eqb GOBJ.value Z.eqb negb].
    rewrite sleep_alive by (apply alive_no_deadline; exact Hd).
    rewrite later_later.
    rewrite IH; cbn [later now deadline served link trace Nat.add].
    + unfold later; cbn [now deadline served link trace poll_done
                           poll_events Nat.add].
      f_equal. f_equal; [lia | lia | ].
      rewrite <- app_assoc. reflexivity.
    + exact Hd.
    + intros i Hi. rewrite Nat.add_succ_r. apply (Hmov (S i)). lia.
    + rewrite Nat.add_succ_r. exact Hdone.
    + lia.
Qed.

Lemma wait_for_move_spins (regs : StatusRegisterMap)
  (self : HomwingGripper) (fuel : nat) :
  forall w : World,
    deadline w = None ->
    (forall i : nat, reports_moving (link w (i + served w))) ->
    fst (wait_for_move regs fuel self w) = Pending
    /\ served (snd (wait_for_move regs fuel self w)) = (fuel + served w)%nat.
Proof.
  induction fuel as [|fuel IH]; intros w Hd Hmov; cbn [wait_for_move].
  - split; reflexivity.
  - unfold bind.
    destruct (Hmov 0%nat) as (st & Hs & He).
    rewrite (read_gripper_status_seen _ _ _ st)
      by (auto using alive_no_deadline).
    rewrite He. cbn [GOBJ.eqb GOBJ.value Z.eqb negb].
    rewrite sleep_alive by (apply alive_no_deadline; exact Hd).
    rewrite later_later.
    destruct (IH (later w (latency (link w (served w)) + 100) (0 + 1)
                    ([ReadInput (STATUS regs) 2 (_address self)]
                       ++ [Sleep 100]))) as [Hp Hn].
    + exact Hd.
    + intros i. cbn [later link served Nat.add].
      rewrite Nat.add_succ_r. apply (Hmov (S i)).
    + split; [exact Hp|]. rewrite Hn. cbn [later served Nat.add]. lia.
Qed.

(** ** C4: waiting for the end of a move *)

(** C4.  Run outside any timeout, [wait_for_move] reads the status until
    the motion state differs from [MOVING_TO_POSITION]: when every read
    reports [MOVING_TO_POSITION] it has not returned after any number of
    polls (it is still polling, having sent one read per round); when the
    first read that reports another motion state is read number [k] (from
    0), it returns normally right after that read, having sent [k + 1]
    reads separated by 100 ms sleeps. *)
Theorem C4_wait_for_move_unbounded (regs : StatusRegisterMap)
  (self : HomwingGripper) (w : World) :
  deadline w = None ->
  ((forall i : nat, reports_moving (link w (i + served w))) ->
   forall fuel : nat,
     fst (wait_for_move regs fuel self w) = Pending
     /\ served (snd (wait_for_move regs fuel self w)) = (fuel + served w)%nat)
  /\ (forall k : nat,
        (forall i : nat, (i < k)%nat ->
           reports_moving (link w (i + served w))) ->
        reports_move_done (link w (k + served w)) ->
        forall fuel : nat,
          (k < fuel)%nat ->
          fst (wait_for_move regs fuel self w) = Return tt
          /\ served (snd (wait_for_move regs fuel self w)) =
               (S k + served w)%nat
          /\ trace (snd (wait_for_move regs fuel self w)) =
               trace w ++ poll_events (STATUS regs) (_address self) k).
Proof.
  intros Hd. split.
  - intros Hmov fuel. apply wait_for_move_spins; assumption.
  - intros k Hmov Hdone fuel Hfuel.
    rewrite (wait_for_move_returns regs self k fuel w) by assumption.
    repeat split.
Qed.

Lemma C4_wait_for_move_unbounded_witness :
  (forall fuel : nat,
      fst (wait_for_move bench_status fuel bench_gripper
             (boot (stub [] [0x09; 0]))) = Pending)
  /\ fst (wait_for_move bench_status 3 bench_gripper
            (boot (stub [[0x09; 0]; [0x09; 0]] [0xC9; 0]))) = Return tt
  /\ served (snd (wait_for_move bench_status 3 bench_gripper
                    (boot (stub [[0x09; 0]; [0x09; 0]] [0xC9; 0])))) = 3%nat.
Proof.
  split.
  - intros fuel.
    apply (C4_wait_for_move_unbounded bench_status bench_gripper
             (boot (stub [] [0x09; 0])) eq_refl).
    intros i. unfold reports_moving, seen, stub, boot; cbn [link payload served].
    destruct (i + 0)%nat as [|n]; cbn [nth];
      (eexists; split; [reflexivity | reflexivity]).
  - destruct (C4_wait_for_move_unbounded bench_status bench_gripper
                (boot (stub [[0x09; 0]; [0x09; 0]] [0xC9; 0])) eq_refl)
      as [_ H].
    destruct (H 2%nat) with (fuel := 3%nat) as (Hr & Hs & _).
    + intros i Hi.
      destruct i as [|[|i]]; [| | lia];
        (eexists; split; [reflexivity | reflexivity]).
    + eexists. split; [reflexivity | discriminate].
    + lia.
    + split; assumption.
Defined.

(** ** The activation loop under its deadline *)

Lemma poll_done_lower (l : nat -> Reply) (k : nat) :
  (forall i : nat, 0 <= latency (l i)) ->
  forall s : nat,
    latency (l s) <= poll_done l s k /\ 100 * Z.of_nat k <= poll_done l s k.
Proof.
  intros Hl. induction k as [|k IH]; intros s; cbn [poll_done].
  - pose proof (Hl s). lia.
  - pose proof (Hl s). destruct (IH (S s)). pose proof (Hl (S s)). lia.
Qed.

Lemma read_gripper_status_cancelled (regs : StatusRegisterMap)
  (self : HomwingGripper) (w : World) (D : Z) :
  deadline w = Some D ->
  D <= now w + latency (link w (served w)) ->
  read_gripper_status regs self w =
    (Raise CancelledError,
     {| now := D; deadline := deadline w; served := S (served w);
        link := link w;
        trace := trace w ++ [ReadInput (STATUS regs) 2 (_address self)] |}).
Proof.
  intros Hd Hl. unfold read_gripper_status, _read_gripper_status, bind.
  rewrite (read_input_registers_cancelled _ _ _ _ D) by assumption.
  reflexivity.
Qed.

Lemma wait_for_activation_loop_returns (regs : StatusRegisterMap)
  (self : HomwingGripper) (k : nat) :
  forall (fuel : nat) (w : World) (D : Z),
    deadline w = Some D ->
    (forall i : nat, 0 <= latency (link w i)) ->
    (forall i : nat, (i < k)%nat ->
       reports_not_activated (link w (i + served w))) ->
    reports_activated (link w (k + served w)) ->
    now w + poll_done (link w) (served w) k < D ->
    (k < fuel)%nat ->
    wait_for_activation_loop regs fuel self w =
      (Return tt,
       later w (poll_done (link w) (served w) k) (S k)
         (poll_events (STATUS regs) (_address self) k)).
Proof.
  induction k as [|k IH]; intros fuel w D Hd Hl Hwait Hact Ht Hfuel;
    (destruct fuel as [|fuel]; [lia|]);
    cbn [wait_for_activation_loop]; unfold bind; cbn [poll_done] in Ht.
  - destruct Hact as (st & Hs & He).
    rewrite (read_gripper_status_seen _ _ _ st)
      by (try assumption; unfold alive; rewrite Hd; exact Ht).
    rewrite He. reflexivity.
  - destruct (Hwait 0%nat ltac:(lia)) as (st & Hs & Hne).
    destruct (poll_done_lower (link w) k Hl (S (served w))) as [_ Hk].
    pose proof (Hl (served w)) as H0.
    rewrite (read_gripper_status_seen _ _ _ st)
      by (try assumption; unfold alive; rewrite Hd; lia).
    destruct (GSTA.eqb (GripperStatus.gSTA st) GSTA.ACTIVATED) eqn:E;
      [apply GSTA_eqb_eq in E; contradiction|].
    rewrite sleep_alive
      by (unfold alive; cbn [later now deadline]; rewrite Hd; lia).
    rewrite later_later.
    rewrite (IH _ _ D); cbn [later now deadline served link trace Nat.add].
    + unfold later; cbn [now deadline served link trace poll_done
                           poll_events Nat.add].
      f_equal. f_equal; [lia | lia | ].
      rewrite <- app_assoc. reflexivity.
    + exact Hd.
    + exact Hl.
    + intros i Hi. rewrite Nat.add_succ_r. apply (Hwait (S i)). lia.
    + rewrite Nat.add_succ_r. exact Hact.
    + lia.
    + lia.
Qed.

Lemma wait_for_activation_loop_cancelled (regs : StatusRegisterMap)
  (self : HomwingGripper) (fuel : nat) :
  forall (w : World) (D : Z),
    deadline w = Some D ->
    (forall i : nat, 0 <= latency (link w i)) ->
    now w < D ->
    D - now w <= 100 * Z.of_nat fuel ->
    (forall k : nat,
       now w + poll_done (link w) (served w) k < D ->
       reports_not_activated (link w (k + served w))) ->
    fst (wait_for_activation_loop regs fuel self w) = Raise CancelledError
    /\ now (snd (wait_for_activation_loop regs fuel self w)) = D.
Proof.
  induction fuel as [|fuel IH]; intros w D Hd Hl Hnow Hfuel Hwait; [lia|].
  cbn [wait_for_activation_loop]; unfold bind.
  pose proof (Hl (served w)) as H0.
  destruct (Z.le_gt_cases D (now w + latency (link w (served w))))
    as [Hlate | Hin].
  { rewrite (read_gripper_status_cancelled _ _ _ D) by assumption.
    split; reflexivity. }
  destruct (Hwait 0%nat Hin) as (st & Hs & Hne).
  rewrite (read_gripper_status_seen _ _ _ st)
    by (try assumption; unfold alive; rewrite Hd; lia).
  destruct (GSTA.eqb (GripperStatus.gSTA st) GSTA.ACTIVATED) eqn:E;
    [apply GSTA_eqb_eq in E; contradiction|].
  destruct (Z.le_gt_cases D (now w + latency (link w (served w)) + 100))
    as [Hlate | Hin'].
  { rewrite (sleep_cancelled _ _ D) by (cbn [later now deadline]; assumption).
    split; reflexivity. }
  rewrite sleep_alive
    by (unfold alive; cbn [later now deadline]; rewrite Hd; lia).
  rewrite later_later.
  apply IH; cbn [later now deadline served link trace Nat.add].
  - exact Hd.
  - exact Hl.
  - lia.
  - lia.
  - intros k Hk. rewrite Nat.add_succ_r. apply (Hwait (S k)).
    cbn [poll_done]. lia.
Qed.

Lemma read_gripper_status_cases (regs : StatusRegisterMap)
  (self : HomwingGripper) (w : World) :
  (exists st : GripperStatus.t,
      alive w (latency (link w (served w)))
      /\ read_gripper_status regs self w =
           (Return st,
            later w (latency (link w (served w))) 1
              [ReadInput (STATUS regs) 2 (_address self)]))
  \/ (exists (e : exn) (w' : World),
         read_gripper_status regs self w = (Raise e, w')).
Proof.
  unfold read_gripper_status, _read_gripper_status, read_input_registers,
    bind, emit, request, suspend, alive, later.
  cbn [now deadline served link trace].
  destruct (deadline w) as [D|];
    [destruct (Z.leb_spec D (now w + latency (link w (served w))))|];
    cbn [now deadline served link trace];
    try (right; do 2 eexists; reflexivity);
    (destruct (payload (link w (served w))) as [c | [|x rest]];
     cbn [item0 ret raise]; try (right; do 2 eexists; reflexivity);
     destruct (GripperStatus.from_u8 (Z.land x 255));
     [left; eexists; split; [assumption || exact I | reflexivity]
     | right; do 2 eexists; reflexivity]).
Qed.

Lemma wait_for_activation_loop_total (regs : StatusRegisterMap)
  (self : HomwingGripper) (fuel : nat) :
  forall (w : World) (D : Z),
    deadline w = Some D ->
    (forall i : nat, 0 <= latency (link w i)) ->
    now w < D ->
    D - now w <= 100 * Z.of_nat fuel ->
    fst (wait_for_activation_loop regs fuel self w) <> Pending.
Proof.
  induction fuel as [|fuel IH]; intros w D Hd Hl Hnow Hfuel; [lia|].
  cbn [wait_for_activation_loop]; unfold bind.
  pose proof (Hl (served w)) as H0.
  destruct (read_gripper_status_cases regs self w)
    as [(st & Ha & Hrun) | (e & w' & Hrun)]; rewrite Hrun;
    [|discriminate].
  unfold alive in Ha; rewrite Hd in Ha.
  destruct (GSTA.eqb (GripperStatus.gSTA st) GSTA.ACTIVATED);
    [discriminate|].
  destruct (Z.le_gt_cases D (now w + latency (link w (served w)) + 100))
    as [Hlate | Hin].
  { rewrite (sleep_cancelled _ _ D) by (cbn [later now deadline]; assumption).
    discriminate. }
  rewrite sleep_alive
    by (unfold alive; cbn [later now deadline]; rewrite Hd; lia).
  rewrite later_later.
  apply (IH _ D); cbn [later now deadline served link trace]; auto; lia.
Qed.

(** ** Where [TimeoutError] can come from *)

Lemma nto_ret {A} (a : A) : never_times_out (ret a).
Proof. intros w. discriminate. Qed.

Lemma nto_raise {A} (e : exn) :
  e <> TimeoutError -> never_times_out (@raise A e).
Proof. intros He w. cbn. congruence. Qed.

Lemma nto_pending {A} : never_times_out (@pending A).
Proof. intros w. discriminate. Qed.

Lemma nto_bind {A B} (m : Async A) (k : A -> Async B) :
  never_times_out m -> (forall a, never_times_out (k a)) ->
  never_times_out (bind m k).
Proof.
  intros Hm Hk w. unfold bind. specialize (Hm w).
  destruct (m w) as [[a|e|] w1]; cbn [fst] in *;
    [apply Hk | intros E; apply Hm; congruence | discriminate].
Qed.

Lemma nto_emit (e : Event) : never_times_out (emit e).
Proof. intros w. discriminate. Qed.

Lemma nto_suspend (d : Z) : never_times_out (suspend d).
Proof.
  intros w. unfold suspend.
  destruct (deadline w) as [D|]; [destruct (D <=? now w + d)|]; discriminate.
Qed.

Lemma nto_request : never_times_out request.
Proof.
  intros w. unfold request.
  match goal with |- context [suspend ?d ?w'] =>
    pose proof (nto_suspend d w') as Hs;
    destruct (suspend d w') as [[u|e|] w1] end; cbn [fst] in *;
    [destruct (payload (link w (served w))); discriminate
    | intros E; apply Hs; congruence | discriminate].
Qed.

Lemma nto_item0 (result : list Z) : never_times_out (item0 result).
Proof. destruct result; intros w; discriminate. Qed.

Create HintDb nto.
#[local] Hint Resolve nto_ret nto_pending nto_bind nto_emit nto_suspend
  nto_request nto_item0 : nto.

Lemma nto_sleep (ms : Z) : never_times_out (sleep ms).
Proof. unfold sleep. auto with nto. Qed.

Lemma nto_read_input_registers (a c s : Z) :
  never_times_out (read_input_registers a c s).
Proof. unfold read_input_registers. auto with nto. Qed.

Lemma nto_write_registers (a : Z) (v : list Z) (s : Z) :
  never_times_out (write_registers a v s).
Proof. unfold write_registers. auto with nto. Qed.

#[local] Hint Resolve nto_sleep nto_read_input_registers
  nto_write_registers : nto.

Lemma nto_read_gripper_status (regs : StatusRegisterMap)
  (self : HomwingGripper) : never_times_out (read_gripper_status regs self).
Proof.
  unfold read_gripper_status, _read_gripper_status.
  apply nto_bind; [auto with nto|]. intros result.
  apply nto_bind; [auto with nto|]. intros r0.
  destruct (GripperStatus.from_u8 (Z.land r0 255));
    [apply nto_ret | apply nto_raise; discriminate].
Qed.

Lemma nto_wait_for_move (regs : StatusRegisterMap) (self : HomwingGripper)
  (fuel : nat) : never_times_out (wait_for_move regs fuel self).
Proof.
  induction fuel as [|fuel IH]; cbn [wait_for_move]; [apply nto_pending|].
  apply nto_bind; [apply nto_read_gripper_status|]. intros result.
  destruct (negb _); auto with nto.
Qed.

(** ** C3: waiting for activation *)

Lemma wait_for_activation_returns (regs : StatusRegisterMap)
  (self : HomwingGripper) (w : World) (fuel k : nat) :
  deadline w = None ->
  (forall i : nat, 0 <= latency (link w i)) ->
  (50 < fuel)%nat ->
  (forall i : nat, (i < k)%nat ->
     reports_not_activated (link w (i + served w))) ->
  reports_activated (link w (k + served w)) ->
  poll_done (link w) (served w) k < 5000 ->
  wait_for_activation regs fuel self w =
    (Return tt,
     later w (poll_done (link w) (served w) k) (S k)
       (poll_events (STATUS regs) (_address self) k)).
Proof.
  intros Hd Hl Hfuel Hwait Hact Ht.
  destruct (poll_done_lower (link w) k Hl (served w)) as [_ Hk].
  unfold wait_for_activation, timeout. rewrite Hd.
  rewrite (wait_for_activation_loop_returns regs self k fuel _
             (now w + 5000));
    cbn [now deadline served link trace]; try assumption; try lia;
    [|reflexivity].
  unfold later; cbn [now deadline served link trace]. rewrite Hd.
  reflexivity.
Qed.

Lemma wait_for_activation_times_out (regs : StatusRegisterMap)
  (self : HomwingGripper) (w : World) (fuel : nat) :
  deadline w = None ->
  (forall i : nat, 0 <= latency (link w i)) ->
  (50 < fuel)%nat ->
  (forall k : nat,
     poll_done (link w) (served w) k < 5000 ->
     reports_not_activated (link w (k + served w))) ->
  fst (wait_for_activation regs fuel self w) = Raise TimeoutError
  /\ now (snd (wait_for_activation regs fuel self w)) = now w + 5000.
Proof.
  intros Hd Hl Hfuel Hwait.
  unfold wait_for_activation, timeout. rewrite Hd.
  match goal with |- context [wait_for_activation_loop regs fuel self ?wa] =>
    destruct (wait_for_activation_loop_cancelled regs self fuel wa
                (now w + 5000)) as [Hr Hn];
    [ reflexivity | exact Hl | cbn [now]; lia | cbn [now]; lia
    | cbn [now deadline served link trace]; intros k Hk; apply Hwait; lia
    | destruct (wait_for_activation_loop regs fuel self wa) as [r w'] ]
  end.
  cbn [fst snd] in Hr, Hn. subst r. cbn [fst snd now]. auto.
Qed.

Lemma wait_for_activation_total (regs : StatusRegisterMap)
  (self : HomwingGripper) (w : World) (fuel : nat) :
  deadline w = None ->
  (forall i : nat, 0 <= latency (link w i)) ->
  (50 < fuel)%nat ->
  fst (wait_for_activation regs fuel self w) <> Pending.
Proof.
  intros Hd Hl Hfuel.
  unfold wait_for_activation, timeout. rewrite Hd.
  match goal with |- context [wait_for_activation_loop regs fuel self ?wa] =>
    pose proof (wait_for_activation_loop_total regs self fuel wa
                  (now w + 5000) eq_refl Hl) as Hp;
    cbn [now] in Hp; specialize (Hp ltac:(lia) ltac:(lia));
    destruct (wait_for_activation_loop regs fuel self wa) as [[u|e|] w']
  end; cbn [fst] in *; [discriminate | | contradiction].
  destruct e; discriminate.
Qed.

(** C3.  Run outside any other timeout, on a link whose latencies are not
    negative, and observed for more than 50 rounds, [wait_for_activation]:
    - returns normally right after the first read that reports ACTIVATED,
      when that reply arrives less than 5000 ms after the start; the reads
      before it are separated by 100 ms sleeps;
    - raises [TimeoutError], 5000 ms after the start, when no reply that
      arrives before then reports ACTIVATED (and all of them are statuses);
    - always ends (it is never still polling);
    - on the stub ACTIVATING, ACTIVATING, ACTIVATED returns after exactly 3
      reads and 200 ms.
    No other operation of the session, and not the address setter, ever
    ends in [TimeoutError]. *)
Theorem C3_wait_for_activation_deadline (regs : StatusRegisterMap)
  (self : HomwingGripper) (w : World) (fuel : nat) :
  deadline w = None ->
  (forall i : nat, 0 <= latency (link w i)) ->
  (50 < fuel)%nat ->
  (forall k : nat,
      (forall i : nat, (i < k)%nat ->
         reports_not_activated (link w (i + served w))) ->
      reports_activated (link w (k + served w)) ->
      poll_done (link w) (served w) k < 5000 ->
      fst (wait_for_activation regs fuel self w) = Return tt
      /\ served (snd (wait_for_activation regs fuel self w)) =
           (S k + served w)%nat
      /\ now (snd (wait_for_activation regs fuel self w)) =
           now w + poll_done (link w) (served w) k
      /\ trace (snd (wait_for_activation regs fuel self w)) =
           trace w ++ poll_events (STATUS regs) (_address self) k)
  /\ ((forall k : nat,
         poll_done (link w) (served w) k < 5000 ->
         reports_not_activated (link w (k + served w))) ->
      fst (wait_for_activation regs fuel self w) = Raise TimeoutError
      /\ now (snd (wait_for_activation regs fuel self w)) = now w + 5000)
  /\ fst (wait_for_activation regs fuel self w) <> Pending
  /\ (fst (wait_for_activation regs fuel self (boot activation_stub)) =
        Return tt
      /\ served (snd (wait_for_activation regs fuel self
                        (boot activation_stub))) = 3%nat
      /\ now (snd (wait_for_activation regs fuel self
                     (boot activation_stub))) = 200
      /\ trace (snd (wait_for_activation regs fuel self
                       (boot activation_stub))) =
           [ ReadInput (STATUS regs) 2 (_address self); Sleep 100;
             ReadInput (STATUS regs) 2 (_address self); Sleep 100;
             ReadInput (STATUS regs) 2 (_address self) ])
  /\ (forall (cregs : ControlRegisterMap) (g : HomwingGripper)
             (n : nat) (a b : Z) (c : ControlRegister.t)
             (m : ExecuteControlMovement),
         never_times_out (read_gripper_status regs g)
         /\ never_times_out (read_fault_position regs g)
         /\ never_times_out (read_speed_force regs g)
         /\ never_times_out (read_voltage_temperature regs g)
         /\ never_times_out (read_software_version regs g)
         /\ never_times_out (write_control_register cregs g c)
         /\ never_times_out (clear_control_register cregs g)
         /\ never_times_out (activate cregs g)
         /\ never_times_out (wait_for_move regs n g)
         /\ never_times_out (move_to_position cregs g a)
         /\ never_times_out (set_target_position cregs g a)
         /\ never_times_out (set_speed_force cregs g a b)
         /\ never_times_out (execute_control_movement cregs g m)
         /\ never_times_out (stop cregs g)
         /\ never_times_out (execute_move cregs g)
         /\ address_setter g a <> inl TimeoutError).
Proof.
  intros Hd Hl Hfuel.
  split; [|split; [|split; [|split]]].
  - intros k Hwait Hact Ht.
    rewrite (wait_for_activation_returns regs self w fuel k) by assumption.
    repeat split.
  - apply wait_for_activation_times_out; assumption.
  - apply wait_for_activation_total; assumption.
  - rewrite (wait_for_activation_returns regs self (boot activation_stub)
               fuel 2).
    + repeat split.
    + reflexivity.
    + intros i. cbn. lia.
    + exact Hfuel.
    + intros i Hi.
      destruct i as [|[|i]]; [| | lia];
        (eexists; split; [reflexivity | discriminate]).
    + eexists; split; reflexivity.
    + cbn. lia.
  - intros cregs g n a b c m.
    unfold read_fault_position, _read_fault_position, read_speed_force,
      _read_speed_force, read_voltage_temperature,
      _read_voltage_temperature, read_software_version,
      clear_control_register, activate, stop, execute_control_movement,
      move_to_position, execute_move, write_control_register,
      set_target_position, _set_target_position, set_speed_force,
      _set_speed_force, address_setter.
    repeat (split; [auto 8 using nto_read_gripper_status, nto_wait_for_move
                      with nto|]).
    destruct (a >? 247); discriminate.
Qed.

Lemma C3_wait_for_activation_deadline_witness :
  fst (wait_for_activation bench_status 51 bench_gripper
         (boot activation_stub)) = Return tt
  /\ served (snd (wait_for_activation bench_status 51 bench_gripper
                    (boot activation_stub))) = 3%nat
  /\ fst (wait_for_activation bench_status 51 bench_gripper
            (boot (stub [] [0x10; 0]))) = Raise TimeoutError
  /\ now (snd (wait_for_activation bench_status 51 bench_gripper
                 (boot (stub [] [0x10; 0])))) = 5000.
Proof.
  assert (Hl : forall (s : list (list Z)) (d : list Z) (i : nat),
             0 <= latency (link (boot (stub s d)) i))
    by (intros s d i; cbn; lia).
  destruct (C3_wait_for_activation_deadline bench_status bench_gripper
              (boot activation_stub) 51 eq_refl (Hl _ _) ltac:(lia))
    as (_ & _ & _ & (Hr & Hs & _) & _).
  destruct (C3_wait_for_activation_deadline bench_status bench_gripper
              (boot (stub [] [0x10; 0])) 51 eq_refl (Hl _ _) ltac:(lia))
    as (_ & Hto & _).
  destruct Hto as [Hraise Hnow].
  - intros k _. unfold reports_not_activated, seen, stub, boot;
      cbn [link payload served].
    destruct (k + 0)%nat as [|n]; cbn [nth];
      (eexists; split; [reflexivity | discriminate]).
  - repeat split; assumption.
Defined.

(** * Further properties of the codec *)

Lemma land_byte_range (v : Z) : 0 <= Z.land v 0xFF <= 255.
Proof.
  change (Z.land v 0xFF) with (Z.land v (Z.ones 8)).
  rewrite Z.land_ones by lia. change (2 ^ 8) with 256.
  pose proof (Z.mod_pos_bound v 256 ltac:(lia)). lia.
Qed.

Lemma testbit_low_byte (v k : Z) :
  0 <= k < 8 -> Z.testbit (Z.land v 0xFF) k = Z.testbit v k.
Proof.
  intros Hk. rewrite Z.land_spec. change 0xFF with (Z.ones 8).
  rewrite Z.testbit_ones_nonneg by lia.
  destruct (Z.ltb_spec k 8); [apply andb_true_r | lia].
Qed.

(** Bit [n] of a two-bit field that starts at bit [s]. *)
Lemma testbit_field (v s n : Z) :
  0 <= s -> 0 <= n ->
  Z.testbit (Z.land (Z.shiftr v s) 3) n = Z.testbit v (n + s) && (n <? 2).
Proof.
  intros Hs Hn. rewrite Z.land_spec, Z.shiftr_spec by assumption.
  change 3 with (Z.ones 2). rewrite Z.testbit_ones_nonneg by lia.
  reflexivity.
Qed.

Lemma field_low_byte (v s : Z) :
  0 <= s <= 6 ->
  Z.land (Z.shiftr (Z.land v 0xFF) s) 3 = Z.land (Z.shiftr v s) 3.
Proof.
  intros Hs. apply Z.bits_inj'. intros n Hn.
  rewrite !testbit_field by lia.
  destruct (Z.ltb_spec n 2); [|now rewrite !andb_false_r].
  rewrite testbit_low_byte by lia. reflexivity.
Qed.

Lemma py_bool_low_byte (v k : Z) :
  0 <= k < 8 ->
  py_bool (Z.land (Z.land v 0xFF) (Z.shiftl 1 k)) =
    py_bool (Z.land v (Z.shiftl 1 k)).
Proof.
  intros Hk. rewrite !py_bool_bit by lia. apply testbit_low_byte. exact Hk.
Qed.

Lemma GripperStatus_from_u8_low_byte (v : Z) :
  GripperStatus.from_u8 (Z.land v 0xFF) = GripperStatus.from_u8 v.
Proof.
  unfold GripperStatus.from_u8.
  rewrite !field_low_byte, !py_bool_low_byte by lia. reflexivity.
Qed.

(** What [GripperStatus.from_u8] puts in each field. *)
Lemma GripperStatus_from_u8_fields (v : Z) :
  exists st : GripperStatus.t,
    GripperStatus.from_u8 v = Some st
    /\ GripperStatus.gACT st = Z.testbit v 0
    /\ GripperStatus.gDropSta st = Z.testbit v 1
    /\ GripperStatus.gMODE st = Z.testbit v 2
    /\ GripperStatus.gGTO st = Z.testbit v 3
    /\ GSTA.value (GripperStatus.gSTA st) = Z.land (Z.shiftr v 4) 3
    /\ GOBJ.value (GripperStatus.gOBJ st) = Z.land (Z.shiftr v 6) 3.
Proof.
  unfold GripperStatus.from_u8.
  destruct (GSTA_of_int_land3 (Z.shiftr v 4)) as (sta & -> & Hsta).
  destruct (GOBJ_of_int_land3 (Z.shiftr v 6)) as (obj & -> & Hobj).
  eexists; split; [reflexivity|]. cbn [GripperStatus.gACT
    GripperStatus.gDropSta GripperStatus.gMODE GripperStatus.gGTO
    GripperStatus.gSTA GripperStatus.gOBJ].
  rewrite !py_bool_bit by lia. repeat split; assumption.
Qed.

(** X1.  [to_u8] loses nothing: two control commands with the same byte
    are the same command. *)
Theorem X1_to_u8_injective (a b : ControlRegister.t) :
  ControlRegister.to_u8 a = ControlRegister.to_u8 b -> a = b.
Proof.
  destruct a as [[] [] [] [] []], b as [[] [] [] [] []]; cbv; intros H;
    first [reflexivity | discriminate H].
Qed.

Lemma X1_to_u8_injective_witness :
  {| ControlRegister.enable := true;
     ControlRegister.mode := false;
     ControlRegister.move_to_targret := (0 <? 1);
     ControlRegister.automatic_inspection := false;
     ControlRegister.automatic_patrol_inspection := false |} =
  {| ControlRegister.enable := true;
     ControlRegister.mode := false;
     ControlRegister.move_to_targret := true;
     ControlRegister.automatic_inspection := false;
     ControlRegister.automatic_patrol_inspection := false |}.
Proof.
  apply X1_to_u8_injective. reflexivity.
Defined.

(** X3.  [GripperStatus.from_u8] reads the low byte and nothing else, and
    loses nothing of it: two words decode to the same status exactly when
    their low bytes are equal. *)
Theorem X3_status_decoding_lossless (a b : Z) :
  GripperStatus.from_u8 a = GripperStatus.from_u8 b
  <-> Z.land a 0xFF = Z.land b 0xFF.
Proof.
  split.
  - intros E.
    destruct (GripperStatus_from_u8_fields a)
      as (sa & Ha & A0 & A1 & A2 & A3 & A4 & A6).
    destruct (GripperStatus_from_u8_fields b)
      as (sb & Hb & B0 & B1 & B2 & B3 & B4 & B6).
    assert (sa = sb) by congruence. subst sb.
    assert (F4 : forall n, 0 <= n ->
              Z.testbit a (n + 4) && (n <? 2) =
              Z.testbit b (n + 4) && (n <? 2))
      by (intros n Hn; rewrite <- !testbit_field by lia; congruence).
    assert (F6 : forall n, 0 <= n ->
              Z.testbit a (n + 6) && (n <? 2) =
              Z.testbit b (n + 6) && (n <? 2))
      by (intros n Hn; rewrite <- !testbit_field by lia; congruence).
    pose proof (F4 0 ltac:(lia)) as T4. pose proof (F4 1 ltac:(lia)) as T5.
    pose proof (F6 0 ltac:(lia)) as T6. pose proof (F6 1 ltac:(lia)) as T7.
    cbn [Z.add Pos.add Pos.succ Z.ltb Z.compare Pos.compare
         Pos.compare_cont] in T4, T5, T6, T7.
    rewrite !andb_true_r in T4, T5, T6, T7.
    apply Z.bits_inj'. intros n Hn.
    rewrite !Z.land_spec. change 0xFF with (Z.ones 8).
    rewrite Z.testbit_ones_nonneg by lia.
    destruct (Z.ltb_spec n 8); [|now rewrite !andb_false_r].
    rewrite !andb_true_r.
    assert (C : n = 0 \/ n = 1 \/ n = 2 \/ n = 3 \/ n = 4 \/ n = 5 \/
                n = 6 \/ n = 7) by lia.
    destruct C as [->|[->|[->|[->|[->|[->|[->| ->]]]]]]]; congruence.
  - intros E.
    rewrite <- (GripperStatus_from_u8_low_byte a),
            <- (GripperStatus_from_u8_low_byte b), E.
    reflexivity.
Qed.

(** X4.  [GripperFaultStatus.from_u8] reports no fault at all exactly when
    bits 0 to 6 of the value are all clear; bit 7 and above play no part. *)
Theorem X4_no_fault_iff_low_bits_clear (v : Z) :
  GripperFaultStatus.from_u8 v =
    {| GripperFaultStatus.control_command_error := false;
       GripperFaultStatus.communication_fault := false;
       GripperFaultStatus.overcurrent_fault := false;
       GripperFaultStatus.voltage_fault := false;
       GripperFaultStatus.enabling_fault := false;
       GripperFaultStatus.overtemperature_fault := false;
       GripperFaultStatus.self_fault := false |}
  <-> Z.land v 0x7F = 0.
Proof.
  unfold GripperFaultStatus.from_u8. rewrite !py_bool_bit by lia.
  assert (Hbit : forall n, 0 <= n ->
            Z.testbit (Z.land v 0x7F) n = Z.testbit v n && (n <? 7)).
  { intros n Hn. rewrite Z.land_spec. change 0x7F with (Z.ones 7).
    rewrite Z.testbit_ones_nonneg by lia. reflexivity. }
  split.
  - intros E. injection E as E0 E1 E2 E3 E4 E5 E6.
    apply Z.bits_inj'. intros n Hn. rewrite Hbit, Z.bits_0 by assumption.
    destruct (Z.ltb_spec n 7); [|apply andb_false_r].
    rewrite andb_true_r.
    assert (C : n = 0 \/ n = 1 \/ n = 2 \/ n = 3 \/ n = 4 \/ n = 5 \/ n = 6)
      by lia.
    destruct C as [->|[->|[->|[->|[->|[->| ->]]]]]]; assumption.
  - intros E.
    assert (Hz : forall n, 0 <= n < 7 -> Z.testbit v n = false).
    { intros n Hn. pose proof (Hbit n ltac:(lia)) as Hb.
      rewrite E, Z.bits_0 in Hb.
      destruct (Z.ltb_spec n 7); [|lia].
      rewrite andb_true_r in Hb. congruence. }
    rewrite !Hz by lia. reflexivity.
Qed.

(** * Further properties of the session *)

Lemma read_input_registers_err a c s w code :
  alive w (latency (link w (served w))) ->
  payload (link w (served w)) = inl code ->
  read_input_registers a c s w =
    (Raise (TransportError code),
     later w (latency (link w (served w))) 1 [ReadInput a c s]).
Proof.
  intros Ha Hp. unfold read_input_registers, bind, emit, request.
  cbn [now deadline served link trace].
  rewrite suspend_alive by exact Ha. cbn [now deadline served link trace].
  rewrite Hp. reflexivity.
Qed.

Lemma write_registers_err a v s w code :
  alive w (latency (link w (served w))) ->
  payload (link w (served w)) = inl code ->
  write_registers a v s w =
    (Raise (TransportError code),
     later w (latency (link w (served w))) 1 [WriteRegs a v s]).
Proof.
  intros Ha Hp. unfold write_registers, bind, emit, request.
  cbn [now deadline served link trace].
  rewrite suspend_alive by exact Ha. cbn [now deadline served link trace].
  rewrite Hp. reflexivity.
Qed.

Lemma read_gripper_status_err (regs : StatusRegisterMap)
  (self : HomwingGripper) (w : World) (code : Z) :
  alive w (latency (link w (served w))) ->
  payload (link w (served w)) = inl code ->
  read_gripper_status regs self w =
    (Raise (TransportError code),
     later w (latency (link w (served w))) 1
       [ReadInput (STATUS regs) 2 (_address self)]).
Proof.
  intros Ha Hp. unfold read_gripper_status, _read_gripper_status, bind.
  rewrite (read_input_registers_err _ _ _ _ code) by assumption.
  reflexivity.
Qed.

Lemma bind_Return_inv {A B} (m : Async A) (k : A -> Async B) (w : World)
  (b : B) :
  fst (bind m k w) = Return b ->
  exists (a : A) (w1 : World), m w = (Return a, w1) /\ fst (k a w1) = Return b.
Proof.
  unfold bind. destruct (m w) as [[a|e|] w1]; cbn [fst]; intros H;
    [eauto | discriminate | discriminate].
Qed.

Lemma item0_Return_inv (result : list Z) (w : World) (x : Z) :
  fst (item0 result w) = Return x -> exists rest, result = x :: rest.
Proof.
  destruct result as [|y rest]; cbn; intros H; [discriminate|].
  injection H as ->. eauto.
Qed.

(** X2.  [read_gripper_status] sends one read of two registers at STATUS to
    the gripper's address and decodes the first register only: the status
    it returns is the decoding of that register, whose high byte (masked
    off before decoding) and whose successor register change nothing. *)
Theorem X2_read_gripper_status_first_register (regs : StatusRegisterMap)
  (self : HomwingGripper) (w : World) (word : Z) (rest : list Z) :
  deadline w = None ->
  payload (link w (served w)) = inr (word :: rest) ->
  exists st : GripperStatus.t,
    GripperStatus.from_u8 word = Some st
    /\ fst (read_gripper_status regs self w) = Return st
    /\ trace (snd (read_gripper_status regs self w)) =
         trace w ++ [ReadInput (STATUS regs) 2 (_address self)]
    /\ served (snd (read_gripper_status regs self w)) = S (served w)
    /\ now (snd (read_gripper_status regs self w)) =
         now w + latency (link w (served w)).
Proof.
  intros Hd Hp.
  destruct (GripperStatus_from_u8_fields word) as (st & Hst & _).
  exists st. split; [exact Hst|].
  rewrite (read_gripper_status_seen regs self w st).
  - repeat split.
  - apply alive_no_deadline; exact Hd.
  - unfold seen. rewrite Hp, GripperStatus_from_u8_low_byte. exact Hst.
Qed.

Lemma X2_read_gripper_status_first_register_witness :
  exists st : GripperStatus.t,
    GripperStatus.from_u8 0xAB31 = Some st
    /\ fst (read_gripper_status bench_status bench_gripper
              (boot (stub [] [0xAB31; 0xFFFF]))) = Return st
    /\ GripperStatus.gSTA st = GSTA.ACTIVATED.
Proof.
  destruct (X2_read_gripper_status_first_register bench_status bench_gripper
              (boot (stub [] [0xAB31; 0xFFFF])) 0xAB31 [0xFFFF]
              eq_refl eq_refl) as (st & Hst & Hrun & _).
  exists st. repeat split; try assumption.
  cbv in Hst. injection Hst as <-. reflexivity.
Defined.

(** X5.  When the link answers with an empty register list, the four
    decoding reads raise [IndexError] (they index [result[0]]), while
    [read_software_version], which returns the list as it is, returns the
    empty list. *)
Theorem X5_empty_reply (regs : StatusRegisterMap) (self : HomwingGripper)
  (w : World) :
  deadline w = None ->
  payload (link w (served w)) = inr [] ->
  fst (read_gripper_status regs self w) = Raise IndexError
  /\ fst (read_fault_position regs self w) = Raise IndexError
  /\ fst (read_speed_force regs self w) = Raise IndexError
  /\ fst (read_voltage_temperature regs self w) = Raise IndexError
  /\ fst (read_software_version regs self w) = Return [].
Proof.
  intros Hd Hp. pose proof (alive_no_deadline w
    (latency (link w (served w))) Hd) as Ha.
  unfold read_gripper_status, _read_gripper_status, read_fault_position,
    _read_fault_position, read_speed_force, _read_speed_force,
    read_voltage_temperature, _read_voltage_temperature,
    read_software_version, bind.
  rewrite !(read_input_registers_ok _ _ _ w []) by assumption.
  repeat split.
Qed.

Lemma X5_empty_reply_witness :
  fst (read_gripper_status bench_status bench_gripper (boot (stub [] []))) =
    Raise IndexError
  /\ fst (read_software_version bench_status bench_gripper
            (boot (stub [] []))) = Return [].
Proof.
  destruct (X5_empty_reply bench_status bench_gripper (boot (stub [] []))
              eq_refl eq_refl) as (H1 & _ & _ & _ & H5).
  split; assumption.
Defined.

(** X6.  A transport error goes through every operation unchanged and
    without retry: when the link answers the next request with an error,
    each read, each single write and each composite command raises that
    same error after exactly one request. *)
Theorem X6_transport_error_propagates (sregs : StatusRegisterMap)
  (cregs : ControlRegisterMap) (self : HomwingGripper) (w : World)
  (code : Z) (c : ControlRegister.t) (a b : Z)
  (m : ExecuteControlMovement) :
  deadline w = None ->
  payload (link w (served w)) = inl code ->
  let failed {A} (r : outcome A * World) :=
    fst r = Raise (TransportError code) /\ served (snd r) = S (served w) in
  failed (read_gripper_status sregs self w)
  /\ failed (read_fault_position sregs self w)
  /\ failed (read_speed_force sregs self w)
  /\ failed (read_voltage_temperature sregs self w)
  /\ failed (read_software_version sregs self w)
  /\ failed (write_control_register cregs self c w)
  /\ failed (clear_control_register cregs self w)
  /\ failed (activate cregs self w)
  /\ failed (stop cregs self w)
  /\ failed (execute_move cregs self w)
  /\ failed (set_target_position cregs self a w)
  /\ failed (set_speed_force cregs self a b w)
  /\ failed (move_to_position cregs self a w)
  /\ failed (execute_control_movement cregs self m w).
Proof.
  intros Hd Hp failed. subst failed. cbv beta.
  pose proof (alive_no_deadline w (latency (link w (served w))) Hd) as Ha.
  unfold read_gripper_status, _read_gripper_status, read_fault_position,
    _read_fault_position, read_speed_force, _read_speed_force,
    read_voltage_temperature, _read_voltage_temperature,
    read_software_version, clear_control_register, activate, stop,
    execute_control_movement, move_to_position, execute_move,
    write_control_register, set_target_position, _set_target_position,
    set_speed_force, _set_speed_force, bind.
  rewrite !(read_input_registers_err _ _ _ w code) by assumption.
  rewrite !(write_registers_err _ _ _ w code) by assumption.
  repeat split.
Qed.

Lemma X6_transport_error_propagates_witness :
  fst (execute_control_movement bench_control bench_gripper
         {| force := 20; speed := 255; position := 100 |}
         (boot (fun _ => {| latency := 1000; payload := inl 4 |}))) =
    Raise (TransportError 4)
  /\ served (snd (execute_control_movement bench_control bench_gripper
                    {| force := 20; speed := 255; position := 100 |}
                    (boot (fun _ => {| latency := 1000;
                                       payload := inl 4 |})))) = 1%nat.
Proof.
  pose proof (X6_transport_error_propagates bench_status bench_control
                bench_gripper
                (boot (fun _ => {| latency := 1000; payload := inl 4 |}))
                4 (ControlRegister.Build true false false false false) 0 0
                {| force := 20; speed := 255; position := 100 |}
                eq_refl eq_refl) as H.
  cbv zeta beta in H. apply H.
Defined.

(** X7.  [move_to_position] writes the position word first and commits the
    move only after that write succeeded: whatever the link does, its
    writes are the POSITION write alone or followed by the control byte
    0x09, it returns only after both, and when the position write fails
    the move is never committed. *)
Theorem X7_move_to_position_commits_after_position
  (regs : ControlRegisterMap) (self : HomwingGripper) (pos : Z) (w : World) :
  let target := WriteRegs (POSITION regs) [Z.shiftl pos 8] (_address self) in
  let commit := WriteRegs (CONTROL regs) [0x09] (_address self) in
  (trace (snd (move_to_position regs self pos w)) = trace w ++ [target]
   /\ fst (move_to_position regs self pos w) <> Return tt
   \/ trace (snd (move_to_position regs self pos w)) =
        trace w ++ [target; commit])
  /\ (forall code : Z,
         deadline w = None ->
         payload (link w (served w)) = inl code ->
         fst (move_to_position regs self pos w) = Raise (TransportError code)
         /\ trace (snd (move_to_position regs self pos w)) =
              trace w ++ [target]).
Proof.
  cbv zeta. split.
  - unfold move_to_position, _set_target_position, execute_move,
      write_control_register, bind.
    cbn [ControlRegister.to_u8 ControlRegister.enable ControlRegister.mode
         ControlRegister.move_to_targret ControlRegister.automatic_inspection
         ControlRegister.automatic_patrol_inspection Z.lor Pos.lor].
    next_write; [next_write|]; cbn [fst snd];
      repeat match goal with H : trace _ = _ |- _ => rewrite H; clear H end;
      rewrite <- ?app_assoc; cbn [app].
    + right. reflexivity.
    + right. reflexivity.
    + left. split; [reflexivity | discriminate].
  - intros code Hd Hp.
    unfold move_to_position, _set_target_position, bind.
    rewrite (write_registers_err _ _ _ w code)
      by (auto using alive_no_deadline).
    split; reflexivity.
Qed.

Lemma X7_move_to_position_commits_after_position_witness :
  fst (move_to_position bench_control bench_gripper 100
         (boot (fun _ => {| latency := 3; payload := inl 2 |}))) =
    Raise (TransportError 2)
  /\ trace (snd (move_to_position bench_control bench_gripper 100
                   (boot (fun _ => {| latency := 3; payload := inl 2 |})))) =
       [WriteRegs 0x03E9 [25600] 9].
Proof.
  destruct (X7_move_to_position_commits_after_position bench_control
              bench_gripper 100
              (boot (fun _ => {| latency := 3; payload := inl 2 |})))
    as [_ H].
  apply (H 2); reflexivity.
Defined.

(** X8.  Speed and force survive the trip through the register: for speed
    and force in 0..255, when the device answers the speed/force read with
    the very word that [set_speed_force] writes, [read_speed_force] returns
    that speed and that force. *)
Theorem X8_speed_force_round_trip (cregs : ControlRegisterMap)
  (sregs : StatusRegisterMap) (self : HomwingGripper) (speed force : Z)
  (w0 w : World) (rest : list Z) :
  0 <= speed <= 255 ->
  0 <= force <= 255 ->
  deadline w = None ->
  (exists word,
      trace (snd (set_speed_force cregs self speed force w0)) =
        trace w0 ++ [WriteRegs (SPEED_FORCE cregs) [word] (_address self)]
      /\ payload (link w (served w)) = inr (word :: rest)) ->
  fst (read_speed_force sregs self w) =
    Return {| sf_speed := speed; sf_force := force |}.
Proof.
  intros Hs Hf Hd (word & Htr & Hp).
  assert (Hword : word = speed + Z.shiftl force 8).
  { unfold set_speed_force, _set_speed_force in Htr.
    destruct (write_registers_cases (SPEED_FORCE cregs)
                [speed + Z.shiftl force 8] (_address self) w0)
      as (w' & [Hrun | [e Hrun]] & Htr');
      rewrite Hrun in Htr; cbn [snd] in Htr; rewrite Htr' in Htr;
      apply app_inv_head in Htr; congruence. }
  subst word.
  unfold read_speed_force, _read_speed_force, bind.
  rewrite (read_input_registers_ok _ _ _ w _ (alive_no_deadline _ _ Hd) Hp).
  cbn [item0 ret fst].
  assert (Hlow : Z.land (speed + Z.shiftl force 8) 0xFF = speed).
  { change (Z.land ?x 0xFF) with (Z.land x (Z.ones 8)).
    rewrite Z.land_ones, Z.shiftl_mul_pow2 by lia. change (2 ^ 8) with 256.
    rewrite Z.mod_add by lia. apply Z.mod_small. lia. }
  assert (Hhigh : Z.land (Z.shiftr (speed + Z.shiftl force 8) 8) 0xFF =
                    force).
  { change (Z.land ?x 0xFF) with (Z.land x (Z.ones 8)).
    rewrite Z.land_ones, Z.shiftr_div_pow2, Z.shiftl_mul_pow2 by lia.
    change (2 ^ 8) with 256.
    rewrite Z.div_add by lia. rewrite (Z.div_small speed 256) by lia.
    apply Z.mod_small. lia. }
  rewrite Hlow, Hhigh. reflexivity.
Qed.

Lemma X8_speed_force_round_trip_witness :
  fst (read_speed_force bench_status bench_gripper
         (boot (stub [] [5375]))) =
    Return {| sf_speed := 255; sf_force := 20 |}.
Proof.
  apply (X8_speed_force_round_trip bench_control bench_status bench_gripper
           255 20 (boot (stub [] [])) (boot (stub [] [5375])) []);
    [lia | lia | reflexivity|].
  exists 5375. split; reflexivity.
Defined.

(** X9.  [set_speed_force] does not keep the two bytes apart: a speed
    outside 0..255 spills into the force byte.  Calling it with [speed] and
    [force] does exactly what calling it with [speed mod 256] and
    [force + speed // 256] does. *)
Theorem X9_speed_spills_into_force (regs : ControlRegisterMap)
  (self : HomwingGripper) (speed force : Z) (w : World) :
  set_speed_force regs self speed force w =
    set_speed_force regs self (speed mod 256) (force + speed / 256) w.
Proof.
  unfold set_speed_force, _set_speed_force.
  replace (speed mod 256 + Z.shiftl (force + speed / 256) 8)
    with (speed + Z.shiftl force 8); [reflexivity|].
  rewrite !Z.shiftl_mul_pow2 by lia. change (2 ^ 8) with 256.
  pose proof (Z.div_mod speed 256 ltac:(lia)). lia.
Qed.

(** X10.  The position survives the trip as well: for a position in
    0..255, when the device answers the fault/position read with the word
    that [set_target_position] writes, [read_fault_position] returns that
    position and no fault. *)
Theorem X10_position_round_trip (cregs : ControlRegisterMap)
  (sregs : StatusRegisterMap) (self : HomwingGripper) (pos : Z)
  (w0 w : World) (rest : list Z) :
  0 <= pos <= 255 ->
  deadline w = None ->
  (exists word,
      trace (snd (set_target_position cregs self pos w0)) =
        trace w0 ++ [WriteRegs (POSITION cregs) [word] (_address self)]
      /\ payload (link w (served w)) = inr (word :: rest)) ->
  fst (read_fault_position sregs self w) =
    Return
      {| fault :=
           {| GripperFaultStatus.control_command_error := false;
              GripperFaultStatus.communication_fault := false;
              GripperFaultStatus.overcurrent_fault := false;
              GripperFaultStatus.voltage_fault := false;
              GripperFaultStatus.enabling_fault := false;
              GripperFaultStatus.overtemperature_fault := false;
              GripperFaultStatus.self_fault := false |};
         fp_position := pos |}.
Proof.
  intros Hs Hd (word & Htr & Hp).
  assert (Hword : word = Z.shiftl pos 8).
  { unfold set_target_position, _set_target_position in Htr.
    destruct (write_registers_cases (POSITION cregs) [Z.shiftl pos 8]
                (_address self) w0) as (w' & [Hrun | [e Hrun]] & Htr');
      rewrite Hrun in Htr; cbn [snd] in Htr; rewrite Htr' in Htr;
      apply app_inv_head in Htr; congruence. }
  subst word.
  unfold read_fault_position, _read_fault_position, bind.
  rewrite (read_input_registers_ok _ _ _ w _ (alive_no_deadline _ _ Hd) Hp).
  cbn [item0 ret fst].
  assert (Hlow : Z.land (Z.shiftl pos 8) 0xFF = 0).
  { change (Z.land ?x 0xFF) with (Z.land x (Z.ones 8)).
    rewrite Z.land_ones, Z.shiftl_mul_pow2 by lia.
    apply Z.mod_mul. lia. }
  assert (Hhigh : Z.land (Z.shiftr (Z.shiftl pos 8) 8) 0xFF = pos).
  { rewrite Z.shiftr_shiftl_l, Z.sub_diag, Z.shiftl_0_r by lia.
    change (Z.land ?x 0xFF) with (Z.land x (Z.ones 8)).
    rewrite Z.land_ones by lia. apply Z.mod_small.
    change (2 ^ 8) with 256. lia. }
  rewrite Hlow, Hhigh. reflexivity.
Qed.

Lemma X10_position_round_trip_witness :
  exists fp : FaultPosition,
    fst (read_fault_position bench_status bench_gripper
           (boot (stub [] [25600]))) = Return fp
    /\ fp_position fp = 100.
Proof.
  eexists. split.
  - apply (X10_position_round_trip bench_control bench_status bench_gripper
             100 (boot (stub [] [])) (boot (stub [] [25600])) []);
      [lia | reflexivity|].
    exists 25600. split; reflexivity.
  - reflexivity.
Defined.

(** X11.  Whatever integer the link returns as a register (also one wider
    than 16 bits, or negative), every numeric field that the decoding reads
    return is a byte: position, speed, force, voltage and temperature are
    all in 0..255. *)
Theorem X11_decoded_fields_are_bytes (regs : StatusRegisterMap)
  (self : HomwingGripper) (w : World) :
  (forall fp : FaultPosition,
      fst (read_fault_position regs self w) = Return fp ->
      0 <= fp_position fp <= 255)
  /\ (forall sf : SpeedForce,
         fst (read_speed_force regs self w) = Return sf ->
         0 <= sf_speed sf <= 255 /\ 0 <= sf_force sf <= 255)
  /\ (forall vt : VoltageTemperature,
         fst (read_voltage_temperature regs self w) = Return vt ->
         0 <= voltage vt <= 255 /\ 0 <= temperature vt <= 255).
Proof.
  split; [|split]; intros v Hv;
    unfold read_fault_position, read_speed_force, read_voltage_temperature
      in Hv;
    apply bind_Return_inv in Hv as (result & w1 & _ & H1);
    apply bind_Return_inv in H1 as (r0 & w2 & _ & H2);
    cbn [ret fst] in H2; injection H2 as <-;
    cbn [fp_position sf_speed sf_force voltage temperature];
    first [apply land_byte_range | split; apply land_byte_range].
Qed.

Lemma X11_decoded_fields_are_bytes_witness :
  exists sf : SpeedForce,
    fst (read_speed_force bench_status bench_gripper
           (boot (stub [] [-70000]))) = Return sf
    /\ 0 <= sf_speed sf <= 255 /\ 0 <= sf_force sf <= 255.
Proof.
  eexists. split; [reflexivity|].
  apply (X11_decoded_fields_are_bytes bench_status bench_gripper
           (boot (stub [] [-70000]))).
  reflexivity.
Defined.

(** X16.  Every control write carries one value below 64, and the helper
    commands write fixed bytes whatever the link answers:
    [clear_control_register] writes 0x00 and [execute_move] writes 0x09,
    each as one write to CONTROL at the gripper's address. *)
Theorem X16_control_writes (regs : ControlRegisterMap)
  (self : HomwingGripper) (c : ControlRegister.t) (w : World) :
  (exists v : Z,
      0 <= v < 64
      /\ trace (snd (write_control_register regs self c w)) =
           trace w ++ [WriteRegs (CONTROL regs) [v] (_address self)])
  /\ trace (snd (clear_control_register regs self w)) =
       trace w ++ [WriteRegs (CONTROL regs) [0x00] (_address self)]
  /\ trace (snd (execute_move regs self w)) =
       trace w ++ [WriteRegs (CONTROL regs) [0x09] (_address self)].
Proof.
  assert (H : forall c', trace (snd (write_control_register regs self c' w)) =
                trace w ++ [WriteRegs (CONTROL regs)
                              [ControlRegister.to_u8 c'] (_address self)]).
  { intros c'. unfold write_control_register.
    destruct (write_registers_cases (CONTROL regs)
                [ControlRegister.to_u8 c'] (_address self) w)
      as (w' & [Hrun | [e Hrun]] & Htr); rewrite Hrun; exact Htr. }
  split; [|split].
  - exists (ControlRegister.to_u8 c). split; [|apply H].
    destruct c as [[] [] [] [] []]; cbv; intuition congruence.
  - unfold clear_control_register. rewrite H. reflexivity.
  - unfold execute_move. rewrite H. reflexivity.
Qed.

(** A transport error met while polling ends the loop with that error. *)
Lemma wait_for_move_fails (regs : StatusRegisterMap)
  (self : HomwingGripper) (code : Z) (k : nat) :
  forall (fuel : nat) (w : World),
    deadline w = None ->
    (forall i : nat, (i < k)%nat -> reports_moving (link w (i + served w))) ->
    payload (link w (k + served w)) = inl code ->
    (k < fuel)%nat ->
    wait_for_move regs fuel self w =
      (Raise (TransportError code),
       later w (poll_done (link w) (served w) k) (S k)
         (poll_events (STATUS regs) (_address self) k)).
Proof.
  induction k as [|k IH]; intros fuel w Hd Hmov Herr Hfuel;
    (destruct fuel as [|fuel]; [lia|]); cbn [wait_for_move]; unfold bind.
  - rewrite (read_gripper_status_err _ _ _ code)
      by (auto using alive_no_deadline).
    reflexivity.
  - destruct (Hmov 0%nat ltac:(lia)) as (st & Hs & He).
    rewrite (read_gripper_status_seen _ _ _ st)
      by (auto using alive_no_deadline).
    rewrite He. cbn [GOBJ.eqb GOBJ.value Z.eqb negb].
    rewrite sleep_alive by (apply alive_no_deadline; exact Hd).
    rewrite later_later.
    rewrite IH; cbn [later now deadline served link trace Nat.add].
    + unfold later; cbn [now deadline served link trace poll_done
                           poll_events Nat.add].
      f_equal. f_equal; [lia | lia | ].
      rewrite <- app_assoc. reflexivity.
    + exact Hd.
    + intros i Hi. rewrite Nat.add_succ_r. apply (Hmov (S i)). lia.
    + rewrite Nat.add_succ_r. exact Herr.
    + lia.
Qed.

(** X13.  [wait_for_move] does not retry: when the reads report
    MOVING_TO_POSITION until the link answers read number [k] (from 0) with
    a transport error, the loop ends with that error right there, after
    [k + 1] reads. *)
Theorem X13_wait_for_move_transport_error (regs : StatusRegisterMap)
  (self : HomwingGripper) (w : World) (code : Z) (k fuel : nat) :
  deadline w = None ->
  (forall i : nat, (i < k)%nat -> reports_moving (link w (i + served w))) ->
  payload (link w (k + served w)) = inl code ->
  (k < fuel)%nat ->
  fst (wait_for_move regs fuel self w) = Raise (TransportError code)
  /\ served (snd (wait_for_move regs fuel self w)) = (S k + served w)%nat
  /\ trace (snd (wait_for_move regs fuel self w)) =
       trace w ++ poll_events (STATUS regs) (_address self) k.
Proof.
  intros Hd Hmov Herr Hfuel.
  rewrite (wait_for_move_fails regs self code k fuel w) by assumption.
  repeat split.
Qed.

Lemma X13_wait_for_move_transport_error_witness :
  fst (wait_for_move bench_status 5 bench_gripper
         (boot (fun n => match n with
                         | O => {| latency := 2; payload := inr [0x09; 0] |}
                         | _ => {| latency := 1000; payload := inl 11 |}
                         end))) = Raise (TransportError 11)
  /\ served (snd (wait_for_move bench_status 5 bench_gripper
         (boot (fun n => match n with
                         | O => {| latency := 2; payload := inr [0x09; 0] |}
                         | _ => {| latency := 1000; payload := inl 11 |}
                         end)))) = 2%nat.
Proof.
  destruct (X13_wait_for_move_transport_error bench_status bench_gripper
              (boot (fun n => match n with
                         | O => {| latency := 2; payload := inr [0x09; 0] |}
                         | _ => {| latency := 1000; payload := inl 11 |}
                         end)) 11 1 5 eq_refl) as (Hr & Hs & _).
  - intros i Hi. assert (i = 0%nat) by lia. subst i.
    eexists; split; [reflexivity | reflexivity].
  - reflexivity.
  - lia.
  - split; assumption.
Defined.

Lemma wait_for_activation_loop_fails (regs : StatusRegisterMap)
  (self : HomwingGripper) (code : Z) (k : nat) :
  forall (fuel : nat) (w : World) (D : Z),
    deadline w = Some D ->
    (forall i : nat, 0 <= latency (link w i)) ->
    (forall i : nat, (i < k)%nat ->
       reports_not_activated (link w (i + served w))) ->
    payload (link w (k + served w)) = inl code ->
    now w + poll_done (link w) (served w) k < D ->
    (k < fuel)%nat ->
    wait_for_activation_loop regs fuel self w =
      (Raise (TransportError code),
       later w (poll_done (link w) (served w) k) (S k)
         (poll_events (STATUS regs) (_address self) k)).
Proof.
  induction k as [|k IH]; intros fuel w D Hd Hl Hwait Herr Ht Hfuel;
    (destruct fuel as [|fuel]; [lia|]);
    cbn [wait_for_activation_loop]; unfold bind; cbn [poll_done] in Ht.
  - rewrite (read_gripper_status_err _ _ _ code)
      by (try assumption; unfold alive; rewrite Hd; exact Ht).
    reflexivity.
  - destruct (Hwait 0%nat ltac:(lia)) as (st & Hs & Hne).
    destruct (poll_done_lower (link w) k Hl (S (served w))) as [_ Hk].
    pose proof (Hl (served w)) as H0.
    rewrite (read_gripper_status_seen _ _ _ st)
      by (try assumption; unfold alive; rewrite Hd; lia).
    destruct (GSTA.eqb (GripperStatus.gSTA st) GSTA.ACTIVATED) eqn:E;
      [apply GSTA_eqb_eq in E; contradiction|].
    rewrite sleep_alive
      by (unfold alive; cbn [later now deadline]; rewrite Hd; lia).
    rewrite later_later.
    rewrite (IH _ _ D); cbn [later now deadline served link trace Nat.add].
    + unfold later; cbn [now deadline served link trace poll_done
                           poll_events Nat.add].
      f_equal. f_equal; [lia | lia | ].
      rewrite <- app_assoc. reflexivity.
    + exact Hd.
    + exact Hl.
    + intros i Hi. rewrite Nat.add_succ_r. apply (Hwait (S i)). lia.
    + rewrite Nat.add_succ_r. exact Herr.
    + lia.
    + lia.
Qed.

(** X14.  A transport error is not turned into a timeout: when the reads
    report a state other than ACTIVATED until the link answers read number
    [k] with a transport error, less than 5000 ms after the start,
    [wait_for_activation] ends with that error at that moment, and the
    deadline is disarmed. *)
Theorem X14_wait_for_activation_transport_error (regs : StatusRegisterMap)
  (self : HomwingGripper) (w : World) (code : Z) (k fuel : nat) :
  deadline w = None ->
  (forall i : nat, 0 <= latency (link w i)) ->
  (forall i : nat, (i < k)%nat ->
     reports_not_activated (link w (i + served w))) ->
  payload (link w (k + served w)) = inl code ->
  poll_done (link w) (served w) k < 5000 ->
  (k < fuel)%nat ->
  fst (wait_for_activation regs fuel self w) = Raise (TransportError code)
  /\ served (snd (wait_for_activation regs fuel self w)) =
       (S k + served w)%nat
  /\ now (snd (wait_for_activation regs fuel self w)) =
       now w + poll_done (link w) (served w) k
  /\ deadline (snd (wait_for_activation regs fuel self w)) = None.
Proof.
  intros Hd Hl Hwait Herr Ht Hfuel.
  unfold wait_for_activation, timeout. rewrite Hd.
  rewrite (wait_for_activation_loop_fails regs self code k fuel _
             (now w + 5000));
    cbn [now deadline served link trace]; try assumption; try lia;
    [|reflexivity].
  repeat split.
Qed.

Lemma X14_wait_for_activation_transport_error_witness :
  fst (wait_for_activation bench_status 51 bench_gripper
         (boot (fun n => match n with
                         | O => {| latency := 2; payload := inr [0x10; 0] |}
                         | _ => {| latency := 1000; payload := inl 11 |}
                         end))) = Raise (TransportError 11)
  /\ now (snd (wait_for_activation bench_status 51 bench_gripper
         (boot (fun n => match n with
                         | O => {| latency := 2; payload := inr [0x10; 0] |}
                         | _ => {| latency := 1000; payload := inl 11 |}
                         end)))) = 1102.
Proof.
  destruct (X14_wait_for_activation_transport_error bench_status
              bench_gripper
              (boot (fun n => match n with
                         | O => {| latency := 2; payload := inr [0x10; 0] |}
                         | _ => {| latency := 1000; payload := inl 11 |}
                         end)) 11 1 51 eq_refl) as (Hr & _ & Hn & _).
  - intros [|i]; cbn; lia.
  - intros i Hi. assert (i = 0%nat) by lia. subst i.
    eexists; split; [reflexivity | discriminate].
  - reflexivity.
  - cbn. lia.
  - lia.
  - split; assumption.
Defined.

Lemma wait_for_move_cancelled (regs : StatusRegisterMap)
  (self : HomwingGripper) (fuel : nat) :
  forall (w : World) (D : Z),
    deadline w = Some D ->
    (forall i : nat, 0 <= latency (link w i)) ->
    now w < D ->
    D - now w <= 100 * Z.of_nat fuel ->
    (forall k : nat,
       now w + poll_done (link w) (served w) k < D ->
       reports_moving (link w (k + served w))) ->
    fst (wait_for_move regs fuel self w) = Raise CancelledError
    /\ now (snd (wait_for_move regs fuel self w)) = D.
Proof.
  induction fuel as [|fuel IH]; intros w D Hd Hl Hnow Hfuel Hmov; [lia|].
  cbn [wait_for_move]; unfold bind.
  pose proof (Hl (served w)) as H0.
  destruct (Z.le_gt_cases D (now w + latency (link w (served w))))
    as [Hlate | Hin].
  { rewrite (read_gripper_status_cancelled _ _ _ D) by assumption.
    split; reflexivity. }
  destruct (Hmov 0%nat Hin) as (st & Hs & He).
  rewrite (read_gripper_status_seen _ _ _ st)
    by (try assumption; unfold alive; rewrite Hd; lia).
  rewrite He. cbn [GOBJ.eqb GOBJ.value Z.eqb negb].
  destruct (Z.le_gt_cases D (now w + latency (link w (served w)) + 100))
    as [Hlate | Hin'].
  { rewrite (sleep_cancelled _ _ D) by (cbn [later now deadline]; assumption).
    split; reflexivity. }
  rewrite sleep_alive
    by (unfold alive; cbn [later now deadline]; rewrite Hd; lia).
  rewrite later_later.
  apply IH; cbn [later now deadline served link trace Nat.add].
  - exact Hd.
  - exact Hl.
  - lia.
  - lia.
  - intros k Hk. rewrite Nat.add_succ_r. apply (Hmov (S k)).
    cbn [poll_done]. lia.
Qed.

(** X15.  A timeout put around [wait_for_move] by the caller does bound
    it: run under [asyncio.timeout] of [ms] milliseconds while every reply
    that arrives in time reports MOVING_TO_POSITION, the call ends in
    [TimeoutError] exactly [ms] milliseconds after the start. *)
Theorem X15_caller_timeout_bounds_wait_for_move (regs : StatusRegisterMap)
  (self : HomwingGripper) (w : World) (ms : Z) (fuel : nat) :
  deadline w = None ->
  (forall i : nat, 0 <= latency (link w i)) ->
  0 < ms <= 100 * Z.of_nat fuel ->
  (forall k : nat,
     poll_done (link w) (served w) k < ms ->
     reports_moving (link w (k + served w))) ->
  fst (timeout ms (wait_for_move regs fuel self) w) = Raise TimeoutError
  /\ now (snd (timeout ms (wait_for_move regs fuel self) w)) = now w + ms.
Proof.
  intros Hd Hl Hms Hmov.
  unfold timeout. rewrite Hd.
  match goal with |- context [wait_for_move regs fuel self ?wa] =>
    destruct (wait_for_move_cancelled regs self fuel wa (now w + ms))
      as [Hr Hn];
    [ reflexivity | exact Hl | cbn [now]; lia | cbn [now]; lia
    | cbn [now deadline served link trace]; intros k Hk; apply Hmov; lia
    | destruct (wait_for_move regs fuel self wa) as [r w'] ]
  end.
  cbn [fst snd] in Hr, Hn. subst r. cbn [fst snd now]. auto.
Qed.

Lemma X15_caller_timeout_bounds_wait_for_move_witness :
  fst (timeout 250 (wait_for_move bench_status 3 bench_gripper)
         (boot (stub [] [0x09; 0]))) = Raise TimeoutError
  /\ now (snd (timeout 250 (wait_for_move bench_status 3 bench_gripper)
                 (boot (stub [] [0x09; 0])))) = 250.
Proof.
  apply (X15_caller_timeout_bounds_wait_for_move bench_status bench_gripper
           (boot (stub [] [0x09; 0])) 250 3 eq_refl).
  - intros i. cbn. lia.
  - lia.
  - intros k _. unfold reports_moving, seen, stub, boot;
      cbn [link payload served].
    destruct (k + 0)%nat as [|n]; cbn [nth];
      (eexists; split; [reflexivity | reflexivity]).
Defined.

(** What one status read does to the world, however it ends, while a
    deadline is armed and not yet reached. *)
Lemma read_gripper_status_frame (regs : StatusRegisterMap)
  (self : HomwingGripper) (w : World) (D : Z) :
  deadline w = Some D ->
  now w < D ->
  0 <= latency (link w (served w)) ->
  served (snd (read_gripper_status regs self w)) = S (served w)
  /\ link (snd (read_gripper_status regs self w)) = link w
  /\ deadline (snd (read_gripper_status regs self w)) = Some D
  /\ now w <= now (snd (read_gripper_status regs self w)) <= D
  /\ (forall st, fst (read_gripper_status regs self w) = Return st ->
        now (snd (read_gripper_status regs self w)) < D)
  /\ fst (read_gripper_status regs self w) <> Pending.
Proof.
  intros Hd Hnow Hl.
  unfold read_gripper_status, _read_gripper_status, read_input_registers,
    bind, emit, request, suspend.
  cbn [now deadline served link trace]. rewrite Hd.
  destruct (Z.leb_spec D (now w + latency (link w (served w))));
    cbn [now deadline served link trace fst snd].
  - repeat split; try assumption; try lia; discriminate.
  - destruct (payload (link w (served w))) as [c | [|x rest]];
      cbn [item0 ret raise now deadline served link trace fst snd];
      try (repeat split; try assumption; try lia; discriminate).
    destruct (GripperStatus.from_u8 (Z.land x 255));
      cbn [item0 ret raise now deadline served link trace fst snd];
      repeat split; try assumption; try lia; discriminate.
Qed.

Lemma wait_for_activation_loop_bounds (regs : StatusRegisterMap)
  (self : HomwingGripper) (fuel : nat) :
  forall (w : World) (D : Z),
    deadline w = Some D ->
    (forall i : nat, 0 <= latency (link w i)) ->
    now w < D ->
    now w <= now (snd (wait_for_activation_loop regs fuel self w)) <= D
    /\ (served w <= served (snd (wait_for_activation_loop regs fuel self w)))%nat
    /\ (served (snd (wait_for_activation_loop regs fuel self w)) = served w
        \/ 100 * (Z.of_nat
                    (served (snd (wait_for_activation_loop regs fuel self w)))
                  - Z.of_nat (served w) - 1) < D - now w).
Proof.
  induction fuel as [|fuel IH]; intros w D Hd Hl Hnow;
    cbn [wait_for_activation_loop].
  - cbn [pending fst snd]. split; [lia | split; [lia | left; reflexivity]].
  - unfold bind.
    destruct (read_gripper_status_frame regs self w D Hd Hnow (Hl _))
      as (Hs & Hk & Hd1 & Hn1 & Hin & Hp).
    destruct (read_gripper_status regs self w) as [[st|e|] w1];
      cbn [fst snd] in *;
      [| split; [lia | split; [lia | right; lia]] | contradiction].
    specialize (Hin st eq_refl).
    destruct (GSTA.eqb (GripperStatus.gSTA st) GSTA.ACTIVATED);
      [cbn [ret fst snd]; split; [lia | split; [lia | right; lia]]|].
    destruct (Z.le_gt_cases D (now w1 + 100)) as [Hlate | Hin'].
    { rewrite (sleep_cancelled _ _ D) by assumption.
      cbn [fst snd now served]. split; [lia | split; [lia | right; lia]]. }
    rewrite sleep_alive by (unfold alive; rewrite Hd1; lia).
    destruct (IH (later w1 100 0 [Sleep 100]) D) as (Hn2 & Hge2 & Hs2);
      cbn [later now deadline served link trace Nat.add] in *.
    + exact Hd1.
    + intros i. rewrite Hk. apply Hl.
    + lia.
    + split; [lia|]. split; [lia|]. right. destruct Hs2 as [E | Hlt].
      * rewrite E. lia.
      * lia.
Qed.

(** X12.  [wait_for_activation] is bounded in time and in traffic: on a
    link whose latencies are not negative, and however it ends, it ends at
    most 5000 ms after it started, has sent at most 50 status reads, and
    leaves no deadline armed. *)
Theorem X12_wait_for_activation_bounded (regs : StatusRegisterMap)
  (self : HomwingGripper) (w : World) (fuel : nat) :
  deadline w = None ->
  (forall i : nat, 0 <= latency (link w i)) ->
  now w <= now (snd (wait_for_activation regs fuel self w)) <= now w + 5000
  /\ (served w <= served (snd (wait_for_activation regs fuel self w))
      <= 50 + served w)%nat
  /\ deadline (snd (wait_for_activation regs fuel self w)) = None.
Proof.
  intros Hd Hl.
  unfold wait_for_activation, timeout. rewrite Hd.
  match goal with |- context [wait_for_activation_loop regs fuel self ?wa] =>
    destruct (wait_for_activation_loop_bounds regs self fuel wa
                (now w + 5000) eq_refl Hl) as (Hn & Hge & Hs);
    [ cbn [now]; lia
    | destruct (wait_for_activation_loop regs fuel self wa) as [r w'] ]
  end.
  cbn [fst snd now served] in Hn, Hge, Hs.
  destruct r as [u | [] | ]; cbn [fst snd now served deadline];
    (split; [lia | split; [lia | reflexivity]]).
Qed.

Lemma X12_wait_for_activation_bounded_witness :
  now (snd (wait_for_activation bench_status 1000 bench_gripper
              (boot (stub [] [0x10; 0])))) <= 5000
  /\ (served (snd (wait_for_activation bench_status 1000 bench_gripper
                     (boot (stub [] [0x10; 0]%Z)))) <= 50)%nat.
Proof.
  destruct (X12_wait_for_activation_bounded bench_status bench_gripper
              (boot (stub [] [0x10; 0])) 1000 eq_refl) as (Hn & Hs & _).
  - intros i. cbn. lia.
  - cbn [boot now served] in Hn, Hs. split; lia.
Defined.

(** X17.  [read_speed_force] and [read_voltage_temperature] split the
    register into its two bytes and lose nothing of a 16-bit word: the
    first field is the word modulo 256, the second the next byte, and for a
    word in 0..65535 the first field plus 256 times the second is the word
    again. *)
Theorem X17_two_byte_reads_split_the_word (regs : StatusRegisterMap)
  (self : HomwingGripper) (w : World) (word : Z) (rest : list Z) :
  deadline w = None ->
  payload (link w (served w)) = inr (word :: rest) ->
  fst (read_speed_force regs self w) =
    Return {| sf_speed := word mod 256; sf_force := (word / 256) mod 256 |}
  /\ fst (read_voltage_temperature regs self w) =
       Return {| voltage := word mod 256;
                 temperature := (word / 256) mod 256 |}
  /\ (0 <= word <= 65535 ->
      word mod 256 + 256 * ((word / 256) mod 256) = word).
Proof.
  intros Hd Hp.
  assert (Hlow : forall x, Z.land x 0xFF = x mod 256).
  { intros x. change (Z.land x 0xFF) with (Z.land x (Z.ones 8)).
    rewrite Z.land_ones by lia. reflexivity. }
  unfold read_speed_force, _read_speed_force, read_voltage_temperature,
    _read_voltage_temperature, bind.
  rewrite !(read_input_registers_ok _ _ _ w _ (alive_no_deadline _ _ Hd) Hp).
  cbn [item0 ret fst].
  rewrite !Hlow, Z.shiftr_div_pow2 by lia. change (2 ^ 8) with 256.
  split; [reflexivity | split; [reflexivity|]].
  intros Hr.
  rewrite (Z.mod_small (word / 256) 256)
    by (split; [apply Z.div_pos; lia | apply Z.div_lt_upper_bound; lia]).
  pose proof (Z.div_mod word 256 ltac:(lia)). lia.
Qed.

Lemma X17_two_byte_reads_split_the_word_witness :
  fst (read_voltage_temperature bench_status bench_gripper
         (boot (stub [] [0x2A18]))) =
    Return {| voltage := 0x2A18 mod 256;
              temperature := (0x2A18 / 256) mod 256 |}
  /\ 0x2A18 mod 256 + 256 * ((0x2A18 / 256) mod 256) = 0x2A18.
Proof.
  destruct (X17_two_byte_reads_split_the_word bench_status bench_gripper
              (boot (stub [] [0x2A18])) 0x2A18 [] eq_refl eq_refl)
    as (_ & Hvt & Hsum).
  split; [exact Hvt | apply Hsum; lia].
Defined.
